(** * docker scan CLI plugin: the Snyk provider

    A shallow embedding of [internal/provider/snyk.go] and the properties
    the specification states about it.

    The provider is orchestration code: it builds subprocess invocations,
    reads a configuration file and classifies errors.  The embedding keeps
    that shape.  Go values are modelled as follows.

    - [string] and [[]byte] are Rocq [string]s (sequences of bytes).
    - An [error] interface value is [option error]: [None] is [nil], and
      [error] is an inductive type with one constructor per dynamic type
      the file distinguishes.
    - A Go call returning [(T, error)], of which [T] is read only when the
      error is [nil], is a [result T].
    - What the operating system and the imported libraries do (running a
      process, reading a file, parsing a UUID, a version or JSON) is
      gathered in the class [Host]: every theorem holds on every host.
    - Packages strings and fmt are modelled as far as snyk.go exercises
      them; what lies beyond is again left to the host.
    - A method that spawns a subprocess runs in the monad [M], a state
      monad over the list of commands run so far. *)

From Stdlib Require Import String Ascii List Bool Arith ZArith Lia.
Import ListNotations.
Local Open Scope list_scope.
Local Open Scope string_scope.

(** ** Errors *)

(** The dynamic types of [error] values the provider tells apart. *)
Inductive error : Type :=
| ErrNotFound                                   (* the variable exec.ErrNotFound *)
| ExecError (Name : string) (Err : error)       (* *exec.Error *)
| PathError (Op Path : string) (Err : error)    (* *os.PathError *)
| ExitError (code : Z) (state : string)         (* *exec.ExitError *)
| errorString (s : string)                      (* errors.New, fmt.Errorf *)
| invalidTokenError (token : string)            (* &invalidTokenError{token} *)
| foreignError (typ : string) (msg : string).   (* any other dynamic type *)

(** A Go pair [(T, error)] whose first component is meaningful only when
    the error is [nil]. *)
Inductive result (A : Type) : Type :=
| ok (a : A)
| fail (e : error).
Arguments ok {A} a.
Arguments fail {A} e.

(** ** Package strings *)

Module strings.

(** The table [asciiSpace] of package strings: tab, newline, vertical
    tab, form feed, carriage return and space. *)
Definition asciiSpace (c : ascii) : bool :=
  Ascii.eqb c "009" || Ascii.eqb c "010" || Ascii.eqb c "011"
  || Ascii.eqb c "012" || Ascii.eqb c "013" || Ascii.eqb c " ".

(** [c >= utf8.RuneSelf], that is, the top bit of the byte is set: the
    byte starts or continues a multi-byte rune. *)
Definition nonASCII (c : ascii) : bool :=
  match c with
  | Ascii _ _ _ _ _ _ _ b7 => b7
  end.

Fixpoint trimLeft (s : string) : string :=
  match s with
  | EmptyString => EmptyString
  | String c rest => if asciiSpace c then trimLeft rest else s
  end.

Fixpoint trimRight (s : string) : string :=
  match s with
  | EmptyString => EmptyString
  | String c rest =>
      match trimRight rest with
      | EmptyString => if asciiSpace c then EmptyString else String c EmptyString
      | r => String c r
      end
  end.

Definition firstByte (s : string) : option ascii :=
  match s with
  | EmptyString => None
  | String c _ => Some c
  end.

Fixpoint lastByte (s : string) : option ascii :=
  match s with
  | EmptyString => None
  | String c EmptyString => Some c
  | String _ rest => lastByte rest
  end.

Definition startsNonASCII (s : string) : bool :=
  match firstByte s with Some c => nonASCII c | None => false end.

Definition endsNonASCII (s : string) : bool :=
  match lastByte s with Some c => nonASCII c | None => false end.

Section TrimSpace.
(** [TrimFunc(s, unicode.IsSpace)], the path TrimSpace takes when it
    meets a byte outside ASCII. *)
Variable TrimFunc_IsSpace : string -> string.

(** strings.TrimSpace.  ASCII white space is dropped from the left up
    to the first other byte; if that byte is not ASCII the rest is
    handed to the Unicode-aware trim.  The same is done from the right. *)
Definition TrimSpace (s : string) : string :=
  let s1 := trimLeft s in
  if startsNonASCII s1 then TrimFunc_IsSpace s1
  else
    let s2 := trimRight s1 in
    if endsNonASCII s2 then TrimFunc_IsSpace s2 else s2.
End TrimSpace.

(** strings.Split(s, sep) for a separator of one byte: the pieces of [s]
    between the occurrences of [sep].  The result is never empty. *)
Fixpoint Split (s : string) (sep : ascii) : list string :=
  match s with
  | EmptyString => [EmptyString]
  | String c rest =>
      if Ascii.eqb c sep then EmptyString :: Split rest sep
      else
        match Split rest sep with
        | piece :: pieces => String c piece :: pieces
        | [] => [String c EmptyString]
        end
  end.

End strings.

(** ** Package fmt *)

Module fmt.

(** Where [doPrintf] stands in the format: copying literal bytes, or
    after a percent sign, having skipped flags or not. *)
Inductive mode : Type :=
| Literal
| Verb (flags : bool).

Definition isFlag (c : ascii) : bool :=
  Ascii.eqb c "#" || Ascii.eqb c "0" || Ascii.eqb c "+"
  || Ascii.eqb c "-" || Ascii.eqb c " ".

(** A digit 1 to 9, a star, a dot or an opening bracket: the format asks
    for a width, a precision or an argument index. *)
Definition isWidthPrecIndex (c : ascii) : bool :=
  Ascii.eqb c "1" || Ascii.eqb c "2" || Ascii.eqb c "3"
  || Ascii.eqb c "4" || Ascii.eqb c "5" || Ascii.eqb c "6"
  || Ascii.eqb c "7" || Ascii.eqb c "8" || Ascii.eqb c "9"
  || Ascii.eqb c "*" || Ascii.eqb c "." || Ascii.eqb c "[".

(** The loop of [doPrintf] of package fmt on string operands, for the formats
    made of literal text, the verbs [%s] and [%v] without flags, [%%],
    verbs that find no operand left and a trailing percent sign.  [None]
    is returned for every other format (width, precision, argument
    index, a flag or another verb on an operand, a verb outside ASCII,
    operands left over). *)
Fixpoint doPrintf (m : mode) (format : string) (a : list string)
  : option string :=
  match format with
  | EmptyString =>
      match m, a with
      | Literal, [] => Some EmptyString
      | Verb _, [] => Some "%!(NOVERB)"
      | _, _ :: _ => None
      end
  | String c rest =>
      match m with
      | Literal =>
          if Ascii.eqb c "%" then doPrintf (Verb false) rest a
          else option_map (String c) (doPrintf Literal rest a)
      | Verb flags =>
          if isFlag c then doPrintf (Verb true) rest a
          else if isWidthPrecIndex c then None
          else if strings.nonASCII c then None
          else if Ascii.eqb c "%" then
            option_map (String "%") (doPrintf Literal rest a)
          else
            match a with
            | [] =>
                option_map (append ("%!" ++ String c "(MISSING)"))
                           (doPrintf Literal rest a)
            | x :: a' =>
                if flags then None
                else if Ascii.eqb c "s" || Ascii.eqb c "v" then
                  option_map (append x) (doPrintf Literal rest a')
                else None
            end
      end
  end.

Section Sprintf.
(** What fmt prints for the formats [doPrintf] above leaves out, and
    the error [Errorf] builds for them. *)
Variable Sprintf_other : string -> list string -> string.
Variable Errorf_other : string -> list string -> error.

(** fmt.Sprintf.  Operands are given as the strings [%s] prints: the
    string itself, [Error()] of an error, [String()] of a Stringer. *)
Definition Sprintf (format : string) (a : list string) : string :=
  match doPrintf Literal format a with
  | Some s => s
  | None => Sprintf_other format a
  end.

(** fmt.Errorf: without the verb [%w] the error is [errors.New] of the
    formatted text. *)
Definition Errorf (format : string) (a : list string) : error :=
  match doPrintf Literal format a with
  | Some s => errorString s
  | None => Errorf_other format a
  end.
End Sprintf.

End fmt.

(** ** Package os/exec *)

(** A [context.Context], by identity. *)
Inductive Context : Type :=
| contextOf (id : nat).

(** An [io.Writer] a command's output is connected to. *)
Inductive Writer : Type :=
| NoWriter                (* nil *)
| Stream (id : nat)       (* a writer supplied by the caller *)
| Buffer (id : nat)       (* a bytes.Buffer created by the function itself *)
| Discard.                (* ioutil.Discard *)

(** The fields of [exec.Cmd] set when a command is built and configured. *)
Record Cmd : Type := mkCmd {
  Path : string;
  Args : list string;
  Env : list string;
  Stdout : Writer;
  Stderr : Writer;
  ctx : option Context;
  lookPathErr : option error
}.

Definition withEnv (c : Cmd) (env : list string) : Cmd :=
  mkCmd (Path c) (Args c) env (Stdout c) (Stderr c) (ctx c) (lookPathErr c).

Definition withStdout (c : Cmd) (w : Writer) : Cmd :=
  mkCmd (Path c) (Args c) (Env c) w (Stderr c) (ctx c) (lookPathErr c).

Definition withStderr (c : Cmd) (w : Writer) : Cmd :=
  mkCmd (Path c) (Args c) (Env c) (Stdout c) w (ctx c) (lookPathErr c).

(** What running a command to completion yields: the bytes it wrote to its
    standard output and standard error, and the error of [Run]. *)
Record Completed : Type := mkCompleted {
  stdout : string;
  stderr : string;
  runErr : option error
}.

(** ** The data model of package provider *)

(** Modelled from the spec: the struct [Options] is declared in another
    file of the package.  It holds the scanner binary path, the execution
    context, the flag list and the two output streams, which are the
    fields snyk.go reads. *)
Record Options : Type := mkOptions {
  context : Context;
  path : string;
  flags : list string;
  out : Writer;
  err : Writer
}.

(** [snykProvider] embeds [Options]. *)
Record snykProvider : Type := mkProvider {
  options : Options
}.

Record snykConfig : Type := mkConfig {
  API : string
}.

(** [uuid.UUID] is an array of 16 bytes. *)
Definition UUID : Type := string.

(** ** The host: operating system and imported libraries *)

Class Host : Type := {
  (** the package variable, set when the plugin is built *)
  SnykDesktopVersion : string;
  (** os.Environ *)
  Environ : list string;
  (** what a command does when it is run *)
  exec_Run : Cmd -> Completed;
  (** exec.LookPath: the file a bare name resolves to, and its error *)
  exec_LookPath : string -> string * option error;
  (** filepath.Base *)
  filepath_Base : string -> string;
  (** [getToken], declared in another file of the package: the token of
      the identity service *)
  getToken : Options -> result string;
  (** homedir.Dir *)
  homedir_Dir : result string;
  (** filepath.Join *)
  filepath_Join : list string -> string;
  (** ioutil.ReadFile *)
  ioutil_ReadFile : string -> result string;
  (** os.IsNotExist *)
  os_IsNotExist : error -> bool;
  (** json.Unmarshal into a [snykConfig] *)
  json_Unmarshal : string -> snykConfig -> result snykConfig;
  (** uuid.Parse *)
  uuid_Parse : string -> result UUID;
  (** package semver: versions, constraints, their parsers and check *)
  semver_Version : Type;
  semver_Constraints : Type;
  semver_NewVersion : string -> result semver_Version;
  semver_NewConstraint : string -> result semver_Constraints;
  semver_Check : semver_Constraints -> semver_Version -> bool;
  semver_String : semver_Version -> string;
  (** the method [Error] of the error types declared outside snyk.go *)
  Error_other : error -> string;
  (** the remainder of packages strings and fmt *)
  TrimFunc_IsSpace : string -> string;
  Sprintf_other : string -> list string -> string;
  Errorf_other : string -> list string -> error
}.

(** ** Building commands *)

(** The path exec.Command records for [name].  A name without a directory
    part is looked up; the file found, if any, replaces the name. *)
Definition commandPath {host : Host} (name : string) : string :=
  if filepath_Base name =? name then
    if fst (exec_LookPath name) =? "" then name else fst (exec_LookPath name)
  else name.

(** The error of that lookup, kept in the command and returned when the
    command is started. *)
Definition commandErr {host : Host} (name : string) : option error :=
  if filepath_Base name =? name then snd (exec_LookPath name) else None.

(** exec.Command and exec.CommandContext: the name is the first argument,
    the path is the name or the file it resolves to, every other field
    has its zero value. *)
Definition Command {host : Host} (name : string) (arg : list string) : Cmd :=
  mkCmd (commandPath name) (name :: arg) [] NoWriter NoWriter None
        (commandErr name).

Definition CommandContext {host : Host} (c : Context) (name : string)
           (arg : list string) : Cmd :=
  mkCmd (commandPath name) (name :: arg) [] NoWriter NoWriter (Some c)
        (commandErr name).

(** ** Running commands *)

(** A computation that may run commands: it extends the list of the
    commands run so far. *)
Definition M (A : Type) : Type := list Cmd -> A * list Cmd.

Definition ret {A : Type} (a : A) : M A := fun log => (a, log).

Definition bind {A B : Type} (m : M A) (k : A -> M B) : M B :=
  fun log => let (a, log') := m log in k a log'.

Notation "x <- m ;; k" := (bind m (fun x => k))
  (at level 61, m at next level, right associativity).

(** The run of a computation from an empty log. *)
Definition run {A : Type} (m : M A) : A * list Cmd := m [].

Definition value {A : Type} (m : M A) : A := fst (run m).

Definition spawned {A : Type} (m : M A) : list Cmd := snd (run m).

(** ** snyk.go *)

Section Provider.

Context {host : Host}.

Definition TrimSpace : string -> string := strings.TrimSpace TrimFunc_IsSpace.
Definition Sprintf : string -> list string -> string :=
  fmt.Sprintf Sprintf_other.
Definition Errorf : string -> list string -> error :=
  fmt.Errorf Errorf_other.

(** The method [Error]. *)
Definition Error (e : error) : string :=
  match e with
  | errorString s => s
  | ExitError _ state => state
  | foreignError _ msg => msg
  | _ => Error_other e
  end.

(** What the verb [%s] prints for an [error] interface value. *)
Definition showError (e : option error) : string :=
  match e with
  | Some e => Error e
  | None => "%!s(<nil>)"
  end.

(** [cmd.Run()]: the command is run to completion and recorded. *)
Definition Run (cmd : Cmd) : M Completed :=
  fun log => (exec_Run cmd, (log ++ [cmd])%list).

(** An option function: it may change the provider and whatever state
    [S] it closes over, and may return an error. *)
Definition SnykProviderOps (S : Type) : Type :=
  snykProvider -> S -> (snykProvider * option error) * S.

(** The loop of NewSnykProvider. *)
Fixpoint applyOps {S : Type} (provider : snykProvider)
         (snykOps : list (SnykProviderOps S)) (st : S)
  : (option snykProvider * option error) * S :=
  match snykOps with
  | [] => ((Some provider, None), st)
  | snykOp :: rest =>
      match snykOp provider st with
      | ((_, Some err), st') => ((None, Some err), st')
      | ((provider', None), st') => applyOps provider' rest st'
      end
  end.

Definition NewSnykProvider {S : Type} (defaultProvider : Options)
           (snykOps : list (SnykProviderOps S)) (st : S)
  : (option snykProvider * option error) * S :=
  let provider := mkProvider defaultProvider in
  applyOps provider snykOps st.

Definition newCommand (s : snykProvider) (arg : list string) : Cmd :=
  let cmd := CommandContext (context (options s)) (path (options s)) arg in
  withEnv cmd (Environ ++
               ["NO_UPDATE_NOTIFIER=true";
                "SNYK_CFG_DISABLESUGGESTIONS=true";
                "SNYK_INTEGRATION_NAME=DOCKER_DESKTOP"])%list.

Definition checkCommandErr (err : option error) : option error :=
  match err with
  | None => None
  | Some ErrNotFound => Some (Errorf "could not find Snyk binary" [])
  | Some (ExecError _ _) => Some (Errorf "could not find Snyk binary" [])
  | Some (PathError _ _ _) => Some (Errorf "could not find Snyk binary" [])
  | Some e => Some e
  end.

Definition Authenticate (s : snykProvider) (token : string)
  : M (option error) :=
  let invalid :=
    if negb (token =? "") then
      match uuid_Parse token with
      | fail _ => true
      | ok _ => false
      end
    else false in
  if invalid then ret (Some (invalidTokenError token))
  else
    let cmd := newCommand s ["auth"; token] in
    let cmd := withEnv cmd (Env cmd ++
                            ["SNYK_UTM_MEDIUM=Partner";
                             "SNYK_UTM_SOURCE=Docker";
                             "SNYK_UTM_CAMPAIGN=Docker-Desktop-2020"])%list in
    let cmd := withStdout cmd (out (options s)) in
    let cmd := withStderr cmd (err (options s)) in
    done <- Run cmd ;;
    ret (checkCommandErr (runErr done)).

Definition isAuthenticatedOnSnyk : string * option error :=
  match homedir_Dir with
  | fail err => ("", Some err)
  | ok home =>
      let snykConfFilePath :=
        filepath_Join [home; ".config"; "configstore"; "snyk.json"] in
      match ioutil_ReadFile snykConfFilePath with
      | fail err =>
          if os_IsNotExist err then ("", None) else ("", Some err)
      | ok buff =>
          match json_Unmarshal buff (mkConfig "") with
          | fail err => ("", Some err)
          | ok config => (API config, None)
          end
      end
  end.

Definition isSome {A : Type} (o : option A) : bool :=
  match o with Some _ => true | None => false end.

Definition Scan (s : snykProvider) (image : string) : M (option error) :=
  let cmd := newCommand s (flags (options s) ++ [image])%list in
  let (authenticated, err0) := isAuthenticatedOnSnyk in
  let finish (cmd : Cmd) : M (option error) :=
    let cmd := withStdout cmd (out (options s)) in
    let cmd := withStderr cmd (err (options s)) in
    done <- Run cmd ;;
    ret (checkCommandErr (runErr done)) in
  if (authenticated =? "") || isSome err0 then
    match getToken (options s) with
    | fail err =>
        ret (Some (Errorf "failed to get DockerScanID: %s" [Error err]))
    | ok token =>
        finish (withEnv cmd
                  (Env cmd ++ [Sprintf "SNYK_DOCKER_TOKEN=%s" [token]])%list)
    end
  else
    finish (withEnv cmd
              (Env cmd ++ [Sprintf "SNYK_TOKEN=%s" [authenticated]])%list).

(** [buff] and [buffErr] are the buffers 0 and 1; after [Run] they hold
    what the command wrote to its standard output and standard error. *)
Definition Version (s : snykProvider) : M (string * option error) :=
  let cmd := newCommand s ["--version"] in
  let cmd := withStdout cmd (Buffer 0) in
  let cmd := withStderr cmd (Buffer 1) in
  done <- Run cmd ;;
  match runErr done with
  | Some err =>
      let errMsg :=
        Sprintf "failed to get snyk version: %s"
                [showError (checkCommandErr (Some err))] in
      let errMsg :=
        if negb (stderr done =? "")
        then Sprintf (errMsg ++ ",%s") [stderr done]
        else errMsg in
      ret ("", Some (Errorf errMsg []))
  | None =>
      ret (Sprintf "Snyk (%s)" [TrimSpace (stdout done)], None)
  end.

Definition cleanVersion (version : string) : string :=
  let version := TrimSpace version in
  hd "" (strings.Split version " ").

Definition minimalSnykVersion : string :=
  Sprintf ">=%s" [SnykDesktopVersion].

(** The format of the warning, ending in a newline. *)
Definition olderFormat : string :=
  "The Snyk version %s installed on your system is older as the one embedded by Docker Desktop (%s), using embedded Snyk version instead."
  ++ String "010" "".

Definition checkUserSnykBinaryVersion (path : string)
  : M (bool * option error) :=
  let cmd := Command path ["--version"] in
  let cmd := withStdout cmd (Buffer 0) in
  let cmd := withStderr cmd Discard in
  done <- Run cmd ;;
  match runErr done with
  | Some err => ret (false, Some err)
  | None =>
      match semver_NewVersion (cleanVersion (stdout done)) with
      | fail err => ret (false, Some err)
      | ok ver =>
          match semver_NewConstraint minimalSnykVersion with
          | fail err => ret (false, Some err)
          | ok constraint =>
              let matchConstraint := semver_Check constraint ver in
              if negb matchConstraint then
                ret (matchConstraint,
                     Some (Errorf olderFormat
                                  [semver_String ver; minimalSnykVersion]))
              else ret (matchConstraint, None)
          end
      end
  end.

End Provider.

(** ** A host to run the provider on

    A small host for worked examples: versions are three decimal numbers
    separated by dots, a constraint is [>=] followed by such a version, a
    UUID is accepted in its canonical form of 36 bytes, and the JSON
    reader takes the text between the third and the fourth double quote
    as the value of ["api"]. *)

Module Example.

Definition digit (c : ascii) : option nat :=
  let n := nat_of_ascii c in
  if ((48 <=? n) && (n <=? 57))%nat then Some (n - 48)%nat else None.

Fixpoint number (s : string) (acc : nat) : option nat :=
  match s with
  | EmptyString => Some acc
  | String c rest =>
      match digit c with
      | Some d => number rest (10 * acc + d)%nat
      | None => None
      end
  end.

Definition decimal (s : string) : option nat :=
  match s with
  | EmptyString => None
  | _ => number s 0
  end.

Record version : Type := mkVersion {
  major : nat;
  minor : nat;
  patch : nat;
  original : string
}.

Definition parse (s : string) : option version :=
  match strings.Split s "." with
  | [a; b; c] =>
      match decimal a, decimal b, decimal c with
      | Some x, Some y, Some z => Some (mkVersion x y z s)
      | _, _, _ => None
      end
  | _ => None
  end.

Definition NewVersion (s : string) : result version :=
  match parse s with
  | Some v => ok v
  | None => fail (errorString "Invalid Semantic Version")
  end.

Definition NewConstraint (s : string) : result version :=
  match s with
  | String ">" (String "=" rest) =>
      match parse rest with
      | Some v => ok v
      | None => fail (errorString ("improper constraint: " ++ s))
      end
  | _ => fail (errorString ("improper constraint: " ++ s))
  end.

(** [v] is at least [c], in lexicographic order. *)
Definition Check (c v : version) : bool :=
  ((major c <? major v)
   || ((major c =? major v)
       && ((minor c <? minor v)
           || ((minor c =? minor v) && (patch c <=? patch v)))))%nat.

Definition isHex (c : ascii) : bool :=
  let n := nat_of_ascii c in
  (((48 <=? n) && (n <=? 57)) || ((97 <=? n) && (n <=? 102))
   || ((65 <=? n) && (n <=? 70)))%nat.

Fixpoint canonical (groups : list nat) (s : string) : bool :=
  match groups with
  | [] => match s with EmptyString => true | _ => false end
  | O :: more =>
      match more, s with
      | [], EmptyString => true
      | _ :: _, String "-" rest => canonical more rest
      | _, _ => false
      end
  | S n :: more =>
      match s with
      | String c rest => isHex c && canonical (n :: more) rest
      | EmptyString => false
      end
  end.

Definition Parse (s : string) : result UUID :=
  if canonical [8; 4; 4; 4; 12]%nat s then ok s
  else fail (errorString "invalid UUID format").

Definition quote : ascii := ascii_of_nat 34.

(** The pieces of a text between its double quotes. *)
Definition Unmarshal (data : string) (v : snykConfig) : result snykConfig :=
  match strings.Split data quote with
  | [_] => if data =? "{}" then ok v
           else fail (foreignError "*json.SyntaxError" "invalid character")
  | [_; _; _; api; _] => ok (mkConfig api)
  | _ => fail (foreignError "*json.SyntaxError" "unexpected end of JSON input")
  end.

Definition noSuchFile (name : string) : error :=
  PathError "open" name (foreignError "syscall.Errno" "no such file or directory").

Definition IsNotExist (e : error) : bool :=
  match e with
  | PathError _ _ (foreignError "syscall.Errno" "no such file or directory") =>
      true
  | _ => false
  end.

(** The last element of a path. *)
Definition Base (name : string) : string :=
  last (strings.Split name "/") name.

(** The binaries [snyk] and [sh] are found in /usr/bin, no other. *)
Definition LookPath (name : string) : string * option error :=
  if (name =? "snyk") || (name =? "sh") then ("/usr/bin/" ++ name, None)
  else ("", Some (ExecError name ErrNotFound)).

Definition make (desktop : string) (proc : Cmd -> Completed)
           (file : string -> result string) (token : result string) : Host :=
  {| SnykDesktopVersion := desktop;
     Environ := ["HOME=/home/moby"; "PATH=/usr/bin"];
     exec_Run := proc;
     exec_LookPath := LookPath;
     filepath_Base := Base;
     getToken := fun _ => token;
     homedir_Dir := ok "/home/moby";
     filepath_Join := String.concat "/";
     ioutil_ReadFile := file;
     os_IsNotExist := IsNotExist;
     json_Unmarshal := Unmarshal;
     uuid_Parse := Parse;
     semver_Version := version;
     semver_Constraints := version;
     semver_NewVersion := NewVersion;
     semver_NewConstraint := NewConstraint;
     semver_Check := Check;
     semver_String := original;
     Error_other := fun _ => "error";
     TrimFunc_IsSpace := fun s => s;
     Sprintf_other := fun format _ => format;
     Errorf_other := fun format _ => errorString format |}.

Definition isVersionQuery (args : list string) : bool :=
  match args with
  | [_; flag] => flag =? "--version"
  | _ => false
  end.

Definition exitStatus (code : Z) : option error :=
  if (code =? 0)%Z then None
  else Some (ExitError code
               ("exit status " ++
                match code with 1%Z => "1" | 2%Z => "2" | _ => "3" end)).

(** A scanner that prints [text] for [--version]; on any other command
    it writes [complaint] to its standard error and exits with [code]. *)
Definition scanner (text : string) (code : Z) (complaint : string)
  : Cmd -> Completed :=
  fun cmd =>
    if isVersionQuery (Args cmd) then mkCompleted text "" None
    else mkCompleted "" complaint (exitStatus code).

(** A home directory without a scanner configuration file. *)
Definition noFile : string -> result string :=
  fun name => fail (noSuchFile name).

(** A home directory whose scanner configuration file holds [content]. *)
Definition fileWith (content : string) : string -> result string :=
  fun name =>
    if name =? "/home/moby/.config/configstore/snyk.json" then ok content
    else fail (noSuchFile name).

Definition snykJSON (token : string) : string :=
  "{" ++ String quote "api" ++ String quote " : " ++ String quote token
  ++ String quote "}".

Definition provider : snykProvider :=
  mkProvider (mkOptions (contextOf 0) "/usr/local/bin/snyk"
                        ["test"; "--docker"] (Stream 1) (Stream 2)).

(** A provider configured with a bare name, to be found on the PATH. *)
Definition onPath : snykProvider :=
  mkProvider (mkOptions (contextOf 0) "snyk" ["test"; "--docker"]
                        (Stream 1) (Stream 2)).

(** The user logged in with the scanner; the scanner, version 1.369.2,
    finds vulnerabilities. *)
Definition loggedIn : Host :=
  make "1.332.0" (scanner "1.369.2 (standalone)" 1 "")
       (fileWith (snykJSON "6e1c5a0c-8f0b-4c59-9d3e-0a4b5c6d7e8f"))
       (fail (errorString "not logged in to Docker Hub")).

(** The scanner configuration holds an empty token; the identity
    service hands out a token; the scanner finds nothing. *)
Definition hubUser : Host :=
  make "1.332.0" (scanner "1.369.2 (standalone)" 0 "")
       (fileWith (snykJSON "")) (ok "hub-token").

(** A scanner binary that fails on every command, writing [complaint]
    to its standard error. *)
Definition broken (complaint : string) : Host :=
  make "1.332.0"
       (fun _ => mkCompleted "" complaint
                   (Some (ExitError 1 "exit status 1")))
       noFile (ok "hub-token").

(** Option functions that record their name in a journal. *)
Definition withPath (name : string) : SnykProviderOps (list string) :=
  fun p journal =>
    let o := options p in
    ((mkProvider (mkOptions (context o) name (flags o) (out o) (err o)),
      None),
     (journal ++ ["path"])%list).

Definition withFlag (flag : string) : SnykProviderOps (list string) :=
  fun p journal =>
    let o := options p in
    ((mkProvider (mkOptions (context o) (path o) (flags o ++ [flag])%list
                            (out o) (err o)),
      None),
     (journal ++ ["flag"])%list).

Definition refuse (msg : string) : SnykProviderOps (list string) :=
  fun p journal => ((p, Some (errorString msg)), (journal ++ ["refuse"])%list).

(** A plugin built without the version of the embedded scanner: the
    package variable keeps its initial value. *)
Definition unversioned : Host :=
  make "unknown" (scanner "1.369.2 (standalone)" 0 "")
       noFile (ok "hub-token").

(** The scanner configuration holds an empty token and there is no
    Docker Hub login, as in the end-to-end test of a failing scan. *)
Definition loggedOut : Host :=
  make "1.332.0" (scanner "1.369.2 (standalone)" 0 "")
       (fileWith (snykJSON ""))
       (fail (errorString
                "You need to be logged in to Docker Hub to use scan feature.")).

(** No scanner configuration and no Docker Hub login. *)
Definition anonymous : Host :=
  make "1.332.0" (scanner "1.300.0" 2 "")
       noFile (fail (errorString "not logged in to Docker Hub")).

(** The scanner binary does not exist at the path of the provider:
    starting it fails with an *os.PathError. *)
Definition missing : Host :=
  make "1.332.0"
       (fun cmd =>
          mkCompleted "" ""
            (Some (PathError "fork/exec" (Path cmd)
                     (foreignError "syscall.Errno"
                                   "no such file or directory"))))
       (fileWith (snykJSON "6e1c5a0c-8f0b-4c59-9d3e-0a4b5c6d7e8f"))
       (ok "hub-token").

(** The scanner configuration exists and cannot be read. *)
Definition denied : string -> result string :=
  fun name =>
    fail (PathError "open" name
            (foreignError "syscall.Errno" "permission denied")).

Definition unreadable : Host :=
  make "1.332.0" (scanner "1.369.2 (standalone)" 0 "") denied
       (ok "hub-token").

End Example.

(** ** Vocabulary of the properties *)

(** A text without a percent sign. *)
Fixpoint percentFree (s : string) : bool :=
  match s with
  | EmptyString => true
  | String c rest => negb (Ascii.eqb c "%") && percentFree rest
  end.

(** The errors checkCommandErr reports as a missing binary. *)
Definition notFoundClass (e : error) : bool :=
  match e with
  | ErrNotFound | ExecError _ _ | PathError _ _ _ => true
  | _ => false
  end.

(** The environment every command of the provider starts from. *)
Definition baseEnv {host : Host} : list string :=
  (Environ ++ ["NO_UPDATE_NOTIFIER=true";
               "SNYK_CFG_DISABLESUGGESTIONS=true";
               "SNYK_INTEGRATION_NAME=DOCKER_DESKTOP"])%list.

(** The command Scan runs for [image] when it adds the variable
    [tokenVar] to the environment. *)
Definition scanCmd {host : Host} (s : snykProvider) (image tokenVar : string)
  : Cmd :=
  mkCmd (commandPath (path (options s)))
        (path (options s) :: flags (options s) ++ [image])%list
        (baseEnv ++ [tokenVar])%list
        (out (options s)) (err (options s))
        (Some (context (options s)))
        (commandErr (path (options s))).

(** The local scanner configuration yields no token. *)
Definition noLocalToken {host : Host} : bool :=
  (fst isAuthenticatedOnSnyk =? "") || isSome (snd isAuthenticatedOnSnyk).

(** The variables a command carries besides the ambient environment. *)
Definition setVars {host : Host} (cmd : Cmd) : list string :=
  skipn (length Environ) (Env cmd).

(** [s] begins with [prefix]. *)
Fixpoint HasPrefix (s prefix : string) {struct prefix} : bool :=
  match prefix, s with
  | EmptyString, _ => true
  | String _ _, EmptyString => false
  | String p prefix', String c s' => Ascii.eqb c p && HasPrefix s' prefix'
  end.

Definition isTokenVar (v : string) : bool :=
  HasPrefix v "SNYK_TOKEN=" || HasPrefix v "SNYK_DOCKER_TOKEN=".

(** How many token variables the provider set on a command. *)
Definition tokenVars {host : Host} (cmd : Cmd) : nat :=
  length (filter isTokenVar (setVars cmd)).

(** The command Authenticate runs for [token]. *)
Definition authCmd {host : Host} (s : snykProvider) (token : string) : Cmd :=
  mkCmd (commandPath (path (options s)))
        [path (options s); "auth"; token]
        (baseEnv ++ ["SNYK_UTM_MEDIUM=Partner";
                     "SNYK_UTM_SOURCE=Docker";
                     "SNYK_UTM_CAMPAIGN=Docker-Desktop-2020"])%list
        (out (options s)) (err (options s))
        (Some (context (options s)))
        (commandErr (path (options s))).

Definition isFail {A : Type} (r : result A) : bool :=
  match r with fail _ => true | ok _ => false end.

Definition isInvalidToken (e : option error) : bool :=
  match e with Some (invalidTokenError _) => true | _ => false end.

(** The command Version runs. *)
Definition versionCmd {host : Host} (s : snykProvider) : Cmd :=
  mkCmd (commandPath (path (options s)))
        [path (options s); "--version"]
        baseEnv (Buffer 0) (Buffer 1)
        (Some (context (options s)))
        (commandErr (path (options s))).

(** The token is not empty and uuid.Parse rejects it. *)
Definition rejected {host : Host} (token : string) : bool :=
  negb (token =? "") && isFail (uuid_Parse token).

(** strings.Contains: [substr] occurs in [s]. *)
Fixpoint Contains (s substr : string) : bool :=
  HasPrefix s substr
  || match s with
     | EmptyString => false
     | String _ rest => Contains rest substr
     end.

(** The command checkUserSnykBinaryVersion runs. *)
Definition userCmd {host : Host} (path : string) : Cmd :=
  mkCmd (commandPath path) [path; "--version"] [] (Buffer 0) Discard None
        (commandErr path).

(** The warning for an installed version [installed] older than the
    constraint [minimal]. *)
Definition olderMessage (installed minimal : string) : string :=
  "The Snyk version " ++ installed
  ++ " installed on your system is older as the one embedded by Docker Desktop ("
  ++ minimal ++ "), using embedded Snyk version instead." ++ String "010" "".

(** One option function applied to a provider and a state, its error
    left aside. *)
Definition applyOne {S : Type} (ps : snykProvider * S)
           (op : snykProvider -> S -> (snykProvider * option error) * S)
  : snykProvider * S :=
  let '((provider, _), st) := op (fst ps) (snd ps) in (provider, st).

(** The option functions applied one after the other, in list order. *)
Definition applyAll {S : Type}
           (ops : list (snykProvider -> S -> (snykProvider * option error) * S))
           (ps : snykProvider * S) : snykProvider * S :=
  fold_left applyOne ops ps.

(** Every byte of [s] satisfies [p]. *)
Fixpoint every (p : ascii -> bool) (s : string) : bool :=
  match s with
  | EmptyString => true
  | String c rest => p c && every p rest
  end.

(** A byte of a version token: ASCII and not white space. *)
Definition tokenByte (c : ascii) : bool :=
  negb (strings.asciiSpace c) && negb (strings.nonASCII c).

Definition asciiByte (c : ascii) : bool := negb (strings.nonASCII c).

(** [s] is empty or begins with a space. *)
Definition emptyOrSpace (s : string) : bool :=
  match s with
  | EmptyString => true
  | String c _ => Ascii.eqb c " "
  end.

(** The error is nil or outside the class checkCommandErr rewrites. *)
Definition notRaw (e : option error) : bool :=
  match e with
  | Some e => negb (notFoundClass e)
  | None => true
  end.

(** [file] is the path a command built for [name] runs: the name itself
    when it has a directory part or when nothing is found for it, the file
    exec.LookPath finds otherwise. *)
Definition resolvesTo {host : Host} (name file : string) : Prop :=
  (filepath_Base name <> name -> file = name)
  /\ (filepath_Base name = name ->
      fst (exec_LookPath name) = "" -> file = name)
  /\ (filepath_Base name = name ->
      fst (exec_LookPath name) <> "" -> file = fst (exec_LookPath name)).

(** * Properties *)

(** ** Strings and formats *)

Lemma append_empty_r (s : string) : s ++ "" = s.
Proof.
  induction s as [| c s IH]; simpl; [reflexivity | now rewrite IH].
Qed.

Lemma append_assoc (a b c : string) : (a ++ b) ++ c = a ++ (b ++ c).
Proof.
  induction a as [| x a IH]; simpl; [reflexivity | now rewrite IH].
Qed.

(** strings.Split never returns an empty slice, so indexing its result at
    0 does not panic. *)
Lemma Split_not_empty (s : string) (sep : ascii) : strings.Split s sep <> [].
Proof.
  destruct s as [| c rest]; simpl; [discriminate |].
  destruct (Ascii.eqb c sep); [discriminate |].
  destruct (strings.Split rest sep); discriminate.
Qed.

Lemma percentFree_app (s t : string) :
  percentFree (s ++ t) = percentFree s && percentFree t.
Proof.
  induction s as [| c s IH]; simpl; [reflexivity |].
  now rewrite IH, andb_assoc.
Qed.

(** Literal text is copied to the output. *)
Lemma doPrintf_literal (s t : string) (a : list string) :
  percentFree s = true ->
  fmt.doPrintf fmt.Literal (s ++ t) a
  = option_map (append s) (fmt.doPrintf fmt.Literal t a).
Proof.
  induction s as [| c s IH]; simpl; intros H.
  - now destruct (fmt.doPrintf fmt.Literal t a).
  - apply andb_prop in H. destruct H as [Hc Hs].
    apply negb_true_iff in Hc. rewrite Hc, (IH Hs).
    now destruct (fmt.doPrintf fmt.Literal t a).
Qed.

Lemma doPrintf_plain (s : string) :
  percentFree s = true -> fmt.doPrintf fmt.Literal s [] = Some s.
Proof.
  intros H. rewrite <- (append_empty_r s) at 1.
  rewrite doPrintf_literal by assumption. simpl. now rewrite append_empty_r.
Qed.

(** A format that ends in [%s] after literal text appends its operand. *)
Lemma doPrintf_suffix (s x : string) :
  percentFree s = true ->
  fmt.doPrintf fmt.Literal (s ++ "%s") [x] = Some (s ++ x).
Proof.
  intros H. rewrite doPrintf_literal by assumption. simpl.
  now rewrite append_empty_r.
Qed.

(** A verb that finds no operand is reported in the output. *)
Lemma doPrintf_missing (s t : string) :
  percentFree s = true -> percentFree t = true ->
  fmt.doPrintf fmt.Literal (s ++ "%s" ++ t) [] = Some (s ++ "%!s(MISSING)" ++ t).
Proof.
  intros Hs Ht. rewrite doPrintf_literal by assumption. simpl.
  now rewrite doPrintf_plain by assumption.
Qed.

(** Sprintf and Errorf on the formats of snyk.go. *)
Lemma Sprintf_suffix (host : Host) (s x : string) :
  percentFree s = true -> Sprintf (s ++ "%s") [x] = s ++ x.
Proof.
  intros H. unfold Sprintf, fmt.Sprintf.
  now rewrite doPrintf_suffix by assumption.
Qed.

Lemma Errorf_suffix (host : Host) (s x : string) :
  percentFree s = true -> Errorf (s ++ "%s") [x] = errorString (s ++ x).
Proof.
  intros H. unfold Errorf, fmt.Errorf.
  now rewrite doPrintf_suffix by assumption.
Qed.

Lemma Sprintf_plain (host : Host) (s : string) :
  percentFree s = true -> Sprintf s [] = s.
Proof.
  intros H. unfold Sprintf, fmt.Sprintf.
  now rewrite doPrintf_plain by assumption.
Qed.

Lemma Errorf_plain (host : Host) (s : string) :
  percentFree s = true -> Errorf s [] = errorString s.
Proof.
  intros H. unfold Errorf, fmt.Errorf.
  now rewrite doPrintf_plain by assumption.
Qed.

Lemma Sprintf_docker_token (host : Host) (token : string) :
  Sprintf "SNYK_DOCKER_TOKEN=%s" [token] = "SNYK_DOCKER_TOKEN=" ++ token.
Proof. now apply (Sprintf_suffix host "SNYK_DOCKER_TOKEN="). Qed.

Lemma Sprintf_token (host : Host) (token : string) :
  Sprintf "SNYK_TOKEN=%s" [token] = "SNYK_TOKEN=" ++ token.
Proof. now apply (Sprintf_suffix host "SNYK_TOKEN="). Qed.

Lemma Errorf_scan_id (host : Host) (msg : string) :
  Errorf "failed to get DockerScanID: %s" [msg]
  = errorString ("failed to get DockerScanID: " ++ msg).
Proof. now apply (Errorf_suffix host "failed to get DockerScanID: "). Qed.

Lemma minimalSnykVersion_eq (host : Host) :
  minimalSnykVersion = ">=" ++ SnykDesktopVersion.
Proof. now apply (Sprintf_suffix host ">="). Qed.

(** ** Classification of subprocess errors *)

Lemma checkCommandErr_other (host : Host) (e : error) :
  notFoundClass e = false -> checkCommandErr (Some e) = Some e.
Proof.
  intros H. destruct e; try reflexivity; discriminate H.
Qed.

Lemma checkCommandErr_nil (host : Host) (err : option error) :
  checkCommandErr err = None -> err = None.
Proof.
  destruct err as [e |]; [destruct e; discriminate | reflexivity].
Qed.

(** C5.  checkCommandErr returns nil exactly when its argument is nil; it
    maps exec.ErrNotFound, every *exec.Error and every *os.PathError to the
    one message "could not find Snyk binary"; every other error is
    returned unchanged. *)
Theorem checkCommandErr_classes (host : Host) :
  (forall err, checkCommandErr err = None <-> err = None)
  /\ checkCommandErr (Some ErrNotFound)
     = Some (errorString "could not find Snyk binary")
  /\ (forall name e, checkCommandErr (Some (ExecError name e))
                     = Some (errorString "could not find Snyk binary"))
  /\ (forall op name e, checkCommandErr (Some (PathError op name e))
                        = Some (errorString "could not find Snyk binary"))
  /\ (forall e, notFoundClass e = false -> checkCommandErr (Some e) = Some e).
Proof.
  split; [| repeat split; try reflexivity; apply checkCommandErr_other].
  intros [e |]; split; try reflexivity; try discriminate.
  destruct e; discriminate.
Qed.

Lemma checkCommandErr_classes_witness :
  checkCommandErr (host := Example.make "1.332.0" (Example.scanner "" 2 "")
                                        Example.noFile (ok "t"))
                  (Some (ExitError 2 "exit status 2"))
  = Some (ExitError 2 "exit status 2").
Proof.
  apply (checkCommandErr_classes
           (Example.make "1.332.0" (Example.scanner "" 2 "")
                         Example.noFile (ok "t"))).
  reflexivity.
Defined.


(** ** Scan *)

(** The run of Scan, case by case. *)
Lemma Scan_run (host : Host) (s : snykProvider) (image : string) :
  run (Scan s image)
  = if noLocalToken then
      match getToken (options s) with
      | fail e =>
          (Some (errorString ("failed to get DockerScanID: " ++ Error e)), [])
      | ok token =>
          let cmd := scanCmd s image ("SNYK_DOCKER_TOKEN=" ++ token) in
          (checkCommandErr (runErr (exec_Run cmd)), [cmd])
      end
    else
      let cmd :=
        scanCmd s image ("SNYK_TOKEN=" ++ fst isAuthenticatedOnSnyk) in
      (checkCommandErr (runErr (exec_Run cmd)), [cmd]).
Proof.
  unfold noLocalToken, Scan, run.
  destruct isAuthenticatedOnSnyk as [authenticated err0]. simpl fst. simpl snd.
  destruct ((authenticated =? "") || isSome err0).
  - destruct (getToken (options s)) as [token | e].
    + now rewrite Sprintf_docker_token.
    + now rewrite Errorf_scan_id.
  - now rewrite Sprintf_token.
Qed.

Lemma setVars_scanCmd (host : Host) (s : snykProvider) (image v : string) :
  setVars (scanCmd s image v)
  = ["NO_UPDATE_NOTIFIER=true"; "SNYK_CFG_DISABLESUGGESTIONS=true";
     "SNYK_INTEGRATION_NAME=DOCKER_DESKTOP"; v].
Proof.
  unfold setVars, scanCmd, baseEnv. simpl Env.
  rewrite <- app_assoc, skipn_app, skipn_all, Nat.sub_diag. reflexivity.
Qed.

(** C1.  For every image, the error of the subprocess Scan spawned is what
    Scan returns when the subprocess exited, with status zero (a nil error)
    or not (an *exec.ExitError, returned unchanged with its exit code). *)
Theorem Scan_relays_exit (host : Host) (s : snykProvider) (image : string)
        (cmd : Cmd) :
  In cmd (spawned (Scan s image)) ->
  Args cmd = (path (options s) :: flags (options s) ++ [image])%list
  /\ (runErr (exec_Run cmd) = None -> value (Scan s image) = None)
  /\ (forall code state,
        runErr (exec_Run cmd) = Some (ExitError code state) ->
        value (Scan s image) = Some (ExitError code state)).
Proof.
  unfold spawned, value. rewrite Scan_run.
  destruct noLocalToken; [destruct (getToken (options s)) as [token | e] |];
    simpl; intros H; try contradiction;
    destruct H as [<- | []]; (split; [reflexivity |]);
    split; intros; simpl;
    match goal with H : runErr _ = _ |- _ => simpl in H; now rewrite H end.
Qed.

(** C2.  When the local configuration yields no token, Scan asks the
    identity service: if that fails Scan fails with "failed to get
    DockerScanID" and runs nothing, otherwise the command carries
    SNYK_DOCKER_TOKEN.  When the local configuration yields a token the
    command carries it as SNYK_TOKEN.  A command Scan runs carries exactly
    one of the two variables. *)
Theorem Scan_token_variable (host : Host) (s : snykProvider) (image : string) :
  (noLocalToken = true ->
   (forall e, getToken (options s) = fail e ->
              run (Scan s image)
              = (Some (errorString ("failed to get DockerScanID: " ++ Error e)),
                 []))
   /\ (forall token, getToken (options s) = ok token ->
                     spawned (Scan s image)
                     = [scanCmd s image ("SNYK_DOCKER_TOKEN=" ++ token)]))
  /\ (noLocalToken = false ->
      spawned (Scan s image)
      = [scanCmd s image ("SNYK_TOKEN=" ++ fst isAuthenticatedOnSnyk)])
  /\ Forall (fun cmd => tokenVars cmd = 1) (spawned (Scan s image)).
Proof.
  unfold spawned. rewrite Scan_run.
  destruct noLocalToken.
  - split; [intros _; split; intros x Hx; now rewrite Hx |].
    split; [discriminate |].
    destruct (getToken (options s)) as [token | e]; simpl; [| constructor].
    constructor; [| constructor].
    unfold tokenVars. rewrite setVars_scanCmd. reflexivity.
  - split; [discriminate |]. split; [reflexivity |].
    simpl. constructor; [| constructor].
    unfold tokenVars. rewrite setVars_scanCmd. reflexivity.
Qed.

Lemma Scan_relays_exit_witness :
  value (Scan (host := Example.loggedIn) Example.provider "alpine:3.10.0")
  = Some (ExitError 1 "exit status 1").
Proof.
  refine (proj2 (proj2 (Scan_relays_exit
                          Example.loggedIn Example.provider
                          "alpine:3.10.0" _ _)) 1%Z _ _).
  - vm_compute. left. reflexivity.
  - reflexivity.
Defined.

Lemma Scan_token_variable_witness :
  spawned (Scan (host := Example.hubUser) Example.provider "alpine:3.10.0")
  = [scanCmd (host := Example.hubUser) Example.provider "alpine:3.10.0"
             "SNYK_DOCKER_TOKEN=hub-token"].
Proof.
  refine (proj2 (proj1 (Scan_token_variable
                          Example.hubUser Example.provider "alpine:3.10.0")
                       _) "hub-token" _); reflexivity.
Defined.

(** ** Authenticate *)

(** The run of Authenticate, case by case. *)
Lemma Authenticate_run (host : Host) (s : snykProvider) (token : string) :
  run (Authenticate s token)
  = if rejected token then (Some (invalidTokenError token), [])
    else (checkCommandErr (runErr (exec_Run (authCmd s token))),
          [authCmd s token]).
Proof.
  unfold rejected, Authenticate, run.
  destruct (token =? ""); simpl; [reflexivity |].
  destruct (uuid_Parse token); reflexivity.
Qed.

Lemma checkCommandErr_not_token (host : Host) (e : option error) :
  isInvalidToken e = false -> isInvalidToken (checkCommandErr e) = false.
Proof.
  destruct e as [[] |]; simpl; intros H; try reflexivity; discriminate H.
Qed.

(** C4.  Given that running a command never yields an invalid-token
    error, Authenticate returns one if and only if the token is not empty
    and does not parse as a UUID, and then nothing is run.  An empty token
    is not validated: the auth subcommand is run whatever uuid.Parse would
    say of it. *)
Theorem Authenticate_token_check (host : Host) (s : snykProvider)
        (token : string) :
  (forall cmd, isInvalidToken (runErr (exec_Run cmd)) = false) ->
  (isInvalidToken (value (Authenticate s token)) = true
   <-> token <> "" /\ isFail (uuid_Parse token) = true)
  /\ (isInvalidToken (value (Authenticate s token)) = true ->
      run (Authenticate s token) = (Some (invalidTokenError token), []))
  /\ (token = "" ->
      run (Authenticate s token)
      = (checkCommandErr (runErr (exec_Run (authCmd s ""))), [authCmd s ""])
        /\ Args (authCmd s "") = [path (options s); "auth"; ""]).
Proof.
  intros Hrun. unfold value. rewrite Authenticate_run. unfold rejected.
  destruct (String.eqb_spec token "") as [-> | Hne]; simpl.
  - rewrite (checkCommandErr_not_token _ _ (Hrun _)).
    repeat split; try discriminate; try tauto.
  - destruct (uuid_Parse token) as [u | e]; simpl.
    + rewrite (checkCommandErr_not_token _ _ (Hrun _)).
      repeat split; try discriminate; try tauto.
    + repeat split; try tauto.
Qed.

Lemma Authenticate_token_check_witness :
  run (Authenticate (host := Example.loggedIn) Example.provider "")
  = (Some (ExitError 1 "exit status 1"),
     [authCmd (host := Example.loggedIn) Example.provider ""]).
Proof.
  refine (proj1 (proj2 (proj2 (Authenticate_token_check
                                 Example.loggedIn Example.provider "" _))
                       eq_refl)).
  intros cmd. unfold exec_Run, Example.loggedIn, Example.make, Example.scanner.
  destruct (Example.isVersionQuery (Args cmd)); reflexivity.
Defined.

(** ** Version *)

Lemma doPrintf_one (s t x : string) :
  percentFree s = true -> percentFree t = true ->
  fmt.doPrintf fmt.Literal (s ++ "%s" ++ t) [x] = Some (s ++ x ++ t).
Proof.
  intros Hs Ht. rewrite doPrintf_literal by assumption. simpl.
  now rewrite doPrintf_plain by assumption.
Qed.

Lemma Sprintf_snyk (host : Host) (x : string) :
  Sprintf "Snyk (%s)" [x] = "Snyk (" ++ x ++ ")".
Proof.
  unfold Sprintf, fmt.Sprintf.
  change "Snyk (%s)" with ("Snyk (" ++ "%s" ++ ")").
  now rewrite doPrintf_one.
Qed.

Lemma Sprintf_version_failure (host : Host) (x : string) :
  Sprintf "failed to get snyk version: %s" [x]
  = "failed to get snyk version: " ++ x.
Proof. now apply (Sprintf_suffix host "failed to get snyk version: "). Qed.

(** The run of Version. *)
Lemma Version_run (host : Host) (s : snykProvider) :
  run (Version s)
  = let done := exec_Run (versionCmd s) in
    (match runErr done with
     | Some e =>
         let errMsg :=
           "failed to get snyk version: "
           ++ showError (checkCommandErr (Some e)) in
         ("", Some (Errorf (if stderr done =? "" then errMsg
                            else Sprintf (errMsg ++ ",%s") [stderr done])
                           []))
     | None => ("Snyk (" ++ TrimSpace (stdout done) ++ ")", None)
     end, [versionCmd s]).
Proof.
  unfold run, Version, bind, Run, ret.
  change (exec_Run _) with (exec_Run (versionCmd s)).
  change (withStderr _ _) with (versionCmd s).
  cbv beta zeta. destruct (runErr (exec_Run (versionCmd s))) as [e |].
  - rewrite Sprintf_version_failure.
    now destruct (stderr (exec_Run (versionCmd s)) =? "").
  - now rewrite Sprintf_snyk.
Qed.

(** X7.  When the subprocess succeeds, Version returns its trimmed output
    between "Snyk (" and ")", and a nil error. *)
Lemma Version_success (host : Host) (s : snykProvider) :
  runErr (exec_Run (versionCmd s)) = None ->
  value (Version s)
  = ("Snyk (" ++ TrimSpace (stdout (exec_Run (versionCmd s))) ++ ")", None).
Proof.
  intros H. unfold value. rewrite Version_run. cbv beta zeta. now rewrite H.
Qed.

(** X8.  When the subprocess fails and neither the text of its error nor
    what it wrote to its standard error holds a percent sign, the message
    of Version is the error text, followed by a comma and the standard
    error if there is any. *)
Lemma Version_failure_plain (host : Host) (s : snykProvider) (e : error) :
  runErr (exec_Run (versionCmd s)) = Some e ->
  percentFree (showError (checkCommandErr (Some e))) = true ->
  percentFree (stderr (exec_Run (versionCmd s))) = true ->
  value (Version s)
  = ("", Some (errorString
                 ("failed to get snyk version: "
                  ++ showError (checkCommandErr (Some e))
                  ++ (if stderr (exec_Run (versionCmd s)) =? "" then ""
                      else "," ++ stderr (exec_Run (versionCmd s)))))).
Proof.
  intros He Hmsg Herr. unfold value. rewrite Version_run.
  cbv beta zeta. rewrite He. cbn [fst].
  set (msg := showError (checkCommandErr (Some e))) in *.
  assert (Hfree : percentFree ("failed to get snyk version: " ++ msg) = true)
    by (rewrite percentFree_app; now rewrite Hmsg).
  destruct (stderr (exec_Run (versionCmd s)) =? "").
  - rewrite Errorf_plain by assumption. now rewrite append_empty_r.
  - assert (Hcomma : percentFree (("failed to get snyk version: " ++ msg) ++ ",")
                     = true)
      by (rewrite percentFree_app; now rewrite Hfree).
    change ",%s" with ("," ++ "%s").
    rewrite <- append_assoc, Sprintf_suffix by assumption.
    rewrite Errorf_plain
      by (rewrite percentFree_app; now rewrite Hcomma, Herr).
    now rewrite !append_assoc.
Qed.

(** When what the subprocess wrote to its standard error holds the verb
    [%s], Version formats it a second time: the verb finds no operand and
    the text comes out changed. *)
Lemma Version_failure_verb (host : Host) (s : snykProvider) (e : error)
      (a b : string) :
  runErr (exec_Run (versionCmd s)) = Some e ->
  percentFree (showError (checkCommandErr (Some e))) = true ->
  stderr (exec_Run (versionCmd s)) = a ++ "%s" ++ b ->
  percentFree a = true -> percentFree b = true ->
  value (Version s)
  = ("", Some (errorString
                 ("failed to get snyk version: "
                  ++ showError (checkCommandErr (Some e))
                  ++ "," ++ a ++ "%!s(MISSING)" ++ b))).
Proof.
  intros He Hmsg Herr Ha Hb. unfold value. rewrite Version_run.
  cbv beta zeta. rewrite He, Herr. cbn [fst].
  set (msg := showError (checkCommandErr (Some e))) in *.
  assert (Hcomma : percentFree (("failed to get snyk version: " ++ msg) ++ ",")
                   = true)
    by (rewrite !percentFree_app; now rewrite Hmsg).
  replace (a ++ "%s" ++ b =? "") with false by (now destruct a).
  change ",%s" with ("," ++ "%s").
  rewrite <- append_assoc, Sprintf_suffix by assumption.
  unfold Errorf, fmt.Errorf. rewrite <- (append_assoc _ a).
  rewrite doPrintf_missing
    by (try assumption; rewrite percentFree_app; now rewrite Hcomma).
  now rewrite !append_assoc.
Qed.

(** C6, at a failing input.  The scanner exits with status 1 and writes
    "unexpected token %s" to its standard error: the message of the error
    Version returns does not contain that text. *)
Theorem Version_stderr_verb_lost (host : Host) (s : snykProvider) :
  exec_Run (versionCmd s)
  = mkCompleted "" "unexpected token %s" (Some (ExitError 1 "exit status 1")) ->
  value (Version s)
  = ("", Some (errorString
                 "failed to get snyk version: exit status 1,unexpected token %!s(MISSING)"))
  /\ Contains
       "failed to get snyk version: exit status 1,unexpected token %!s(MISSING)"
       "unexpected token %s" = false.
Proof.
  intros H. split; [| reflexivity].
  rewrite (Version_failure_verb host s (ExitError 1 "exit status 1")
                                "unexpected token " "");
    try (rewrite H; reflexivity); reflexivity.
Qed.

Lemma Version_stderr_verb_lost_witness :
  value (Version (host := Example.broken "unexpected token %s")
                 Example.provider)
  = ("", Some (errorString
                 "failed to get snyk version: exit status 1,unexpected token %!s(MISSING)")).
Proof.
  apply (Version_stderr_verb_lost
           (Example.broken "unexpected token %s") Example.provider).
  reflexivity.
Defined.

(** ** The environment of the subprocesses *)

(** C7.  A command built by newCommand carries the ambient environment
    followed by NO_UPDATE_NOTIFIER, SNYK_CFG_DISABLESUGGESTIONS and
    SNYK_INTEGRATION_NAME.  Authenticate, for a token it does not reject,
    runs one command, which carries the three campaign variables after
    them and nothing else.  Scan, with a local token or a token of the
    identity service, runs one command, which carries that token variable
    after them and nothing else.  Version runs one command, which carries
    nothing else.  No command these operations run has another
    environment. *)
Theorem provider_environment (host : Host) (s : snykProvider) :
  (forall arg,
      Env (newCommand s arg)
      = (Environ ++ ["NO_UPDATE_NOTIFIER=true";
                     "SNYK_CFG_DISABLESUGGESTIONS=true";
                     "SNYK_INTEGRATION_NAME=DOCKER_DESKTOP"])%list)
  /\ (forall token,
        Forall (fun cmd =>
                  Env cmd
                  = (Environ ++ ["NO_UPDATE_NOTIFIER=true";
                                 "SNYK_CFG_DISABLESUGGESTIONS=true";
                                 "SNYK_INTEGRATION_NAME=DOCKER_DESKTOP";
                                 "SNYK_UTM_MEDIUM=Partner";
                                 "SNYK_UTM_SOURCE=Docker";
                                 "SNYK_UTM_CAMPAIGN=Docker-Desktop-2020"])%list)
               (spawned (Authenticate s token)))
  /\ (forall token,
        rejected token = false ->
        exists cmd,
          spawned (Authenticate s token) = [cmd]
          /\ Env cmd
             = (Environ ++ ["NO_UPDATE_NOTIFIER=true";
                            "SNYK_CFG_DISABLESUGGESTIONS=true";
                            "SNYK_INTEGRATION_NAME=DOCKER_DESKTOP";
                            "SNYK_UTM_MEDIUM=Partner";
                            "SNYK_UTM_SOURCE=Docker";
                            "SNYK_UTM_CAMPAIGN=Docker-Desktop-2020"])%list)
  /\ (forall image,
        Forall (fun cmd =>
                  exists token,
                    Env cmd
                    = (Environ ++ ["NO_UPDATE_NOTIFIER=true";
                                   "SNYK_CFG_DISABLESUGGESTIONS=true";
                                   "SNYK_INTEGRATION_NAME=DOCKER_DESKTOP";
                                   ("SNYK_TOKEN=" ++ token)%string])%list
                    \/ Env cmd
                       = (Environ ++ ["NO_UPDATE_NOTIFIER=true";
                                      "SNYK_CFG_DISABLESUGGESTIONS=true";
                                      "SNYK_INTEGRATION_NAME=DOCKER_DESKTOP";
                                      ("SNYK_DOCKER_TOKEN=" ++ token)%string])%list)
               (spawned (Scan s image)))
  /\ (forall image,
        noLocalToken = false ->
        exists cmd,
          spawned (Scan s image) = [cmd]
          /\ Env cmd
             = (Environ ++ ["NO_UPDATE_NOTIFIER=true";
                            "SNYK_CFG_DISABLESUGGESTIONS=true";
                            "SNYK_INTEGRATION_NAME=DOCKER_DESKTOP";
                            ("SNYK_TOKEN=" ++ fst isAuthenticatedOnSnyk)%string])%list)
  /\ (forall image token,
        noLocalToken = true ->
        getToken (options s) = ok token ->
        exists cmd,
          spawned (Scan s image) = [cmd]
          /\ Env cmd
             = (Environ ++ ["NO_UPDATE_NOTIFIER=true";
                            "SNYK_CFG_DISABLESUGGESTIONS=true";
                            "SNYK_INTEGRATION_NAME=DOCKER_DESKTOP";
                            ("SNYK_DOCKER_TOKEN=" ++ token)%string])%list)
  /\ (exists cmd,
        spawned (Version s) = [cmd]
        /\ Env cmd
           = (Environ ++ ["NO_UPDATE_NOTIFIER=true";
                          "SNYK_CFG_DISABLESUGGESTIONS=true";
                          "SNYK_INTEGRATION_NAME=DOCKER_DESKTOP"])%list).
Proof.
  assert (Hauth : forall token,
             Env (authCmd s token)
             = (Environ ++ ["NO_UPDATE_NOTIFIER=true";
                            "SNYK_CFG_DISABLESUGGESTIONS=true";
                            "SNYK_INTEGRATION_NAME=DOCKER_DESKTOP";
                            "SNYK_UTM_MEDIUM=Partner";
                            "SNYK_UTM_SOURCE=Docker";
                            "SNYK_UTM_CAMPAIGN=Docker-Desktop-2020"])%list).
  { intros token. unfold authCmd, baseEnv. cbn [Env].
    now rewrite <- app_assoc. }
  assert (Hscan : forall image v,
             Env (scanCmd s image v)
             = (Environ ++ ["NO_UPDATE_NOTIFIER=true";
                            "SNYK_CFG_DISABLESUGGESTIONS=true";
                            "SNYK_INTEGRATION_NAME=DOCKER_DESKTOP"; v])%list).
  { intros image v. unfold scanCmd, baseEnv. cbn [Env].
    now rewrite <- app_assoc. }
  split; [reflexivity |]. repeat split.
  - intros token. unfold spawned. rewrite Authenticate_run.
    destruct (rejected token); simpl; constructor; [apply Hauth | constructor].
  - intros token Hok. unfold spawned. rewrite Authenticate_run, Hok.
    exists (authCmd s token). split; [reflexivity | apply Hauth].
  - intros image. unfold spawned. rewrite Scan_run.
    destruct noLocalToken;
      [destruct (getToken (options s)) as [token | e] |]; simpl;
      constructor; try constructor.
    + exists token. right. apply Hscan.
    + exists (fst isAuthenticatedOnSnyk). left. apply Hscan.
  - intros image Hlocal. unfold spawned. rewrite Scan_run, Hlocal.
    eexists. split; [reflexivity | apply Hscan].
  - intros image token Hlocal Htoken. unfold spawned.
    rewrite Scan_run, Hlocal, Htoken.
    eexists. split; [reflexivity | apply Hscan].
  - exists (versionCmd s). unfold spawned. rewrite Version_run.
    split; reflexivity.
Qed.

Lemma provider_environment_witness :
  exists cmd,
    spawned (Authenticate (host := Example.hubUser) Example.provider
                          "6e1c5a0c-8f0b-4c59-9d3e-0a4b5c6d7e8f")
    = [cmd]
    /\ Env cmd
       = ["HOME=/home/moby"; "PATH=/usr/bin";
          "NO_UPDATE_NOTIFIER=true";
          "SNYK_CFG_DISABLESUGGESTIONS=true";
          "SNYK_INTEGRATION_NAME=DOCKER_DESKTOP";
          "SNYK_UTM_MEDIUM=Partner";
          "SNYK_UTM_SOURCE=Docker";
          "SNYK_UTM_CAMPAIGN=Docker-Desktop-2020"].
Proof.
  apply (proj1 (proj2 (proj2 (provider_environment
                                Example.hubUser Example.provider)))
               "6e1c5a0c-8f0b-4c59-9d3e-0a4b5c6d7e8f").
  reflexivity.
Defined.

(** ** The version gate *)

Lemma Errorf_older (host : Host) (installed minimal : string) :
  Errorf olderFormat [installed; minimal]
  = errorString (olderMessage installed minimal).
Proof. reflexivity. Qed.

(** The run of checkUserSnykBinaryVersion. *)
Lemma checkUserSnykBinaryVersion_run (host : Host) (path : string) :
  run (checkUserSnykBinaryVersion path)
  = let done := exec_Run (userCmd path) in
    (match runErr done with
     | Some e => (false, Some e)
     | None =>
         match semver_NewVersion (cleanVersion (stdout done)) with
         | fail e => (false, Some e)
         | ok ver =>
             match semver_NewConstraint (">=" ++ SnykDesktopVersion) with
             | fail e => (false, Some e)
             | ok constraint =>
                 if semver_Check constraint ver then (true, None)
                 else (false,
                       Some (errorString
                               (olderMessage (semver_String ver)
                                             (">=" ++ SnykDesktopVersion))))
             end
         end
     end, [userCmd path]).
Proof.
  unfold run, checkUserSnykBinaryVersion, bind, Run, ret.
  change (exec_Run _) with (exec_Run (userCmd path)).
  change (withStderr _ _) with (userCmd path).
  cbv beta zeta. rewrite minimalSnykVersion_eq.
  destruct (runErr (exec_Run (userCmd path))); [reflexivity |].
  destruct (semver_NewVersion _) as [ver | e]; [| reflexivity].
  destruct (semver_NewConstraint _) as [constraint | e]; [| reflexivity].
  rewrite Errorf_older.
  now destruct (semver_Check constraint ver).
Qed.



(** C10.  The gate returns true if and only if it returns a nil error.  A
    failing subprocess, a version text that does not parse, a constraint
    that does not parse and a version that does not satisfy the constraint
    each yield false and an error. *)
Theorem gate_true_iff_nil_error (host : Host) (path : string) :
  (fst (value (checkUserSnykBinaryVersion path)) = true
   <-> snd (value (checkUserSnykBinaryVersion path)) = None)
  /\ (forall e,
        runErr (exec_Run (userCmd path)) = Some e ->
        value (checkUserSnykBinaryVersion path) = (false, Some e))
  /\ (forall e,
        runErr (exec_Run (userCmd path)) = None ->
        semver_NewVersion (cleanVersion (stdout (exec_Run (userCmd path))))
        = fail e ->
        value (checkUserSnykBinaryVersion path) = (false, Some e))
  /\ (forall v e,
        runErr (exec_Run (userCmd path)) = None ->
        semver_NewVersion (cleanVersion (stdout (exec_Run (userCmd path))))
        = ok v ->
        semver_NewConstraint (">=" ++ SnykDesktopVersion) = fail e ->
        value (checkUserSnykBinaryVersion path) = (false, Some e))
  /\ (forall v c,
        runErr (exec_Run (userCmd path)) = None ->
        semver_NewVersion (cleanVersion (stdout (exec_Run (userCmd path))))
        = ok v ->
        semver_NewConstraint (">=" ++ SnykDesktopVersion) = ok c ->
        semver_Check c v = false ->
        exists e, value (checkUserSnykBinaryVersion path) = (false, Some e)).
Proof.
  unfold value. rewrite checkUserSnykBinaryVersion_run. cbv beta zeta.
  cbn [fst]. split; [| repeat split].
  - destruct (runErr _); [now split |].
    destruct (semver_NewVersion _); [| now split].
    destruct (semver_NewConstraint _) as [c |]; [| now split].
    now destruct (semver_Check c _).
  - now intros e ->.
  - now intros e -> ->.
  - now intros v e -> -> ->.
  - intros v c -> -> -> ->. eauto.
Qed.

Lemma gate_true_iff_nil_error_witness :
  value (checkUserSnykBinaryVersion (host := Example.unversioned)
                                    "/usr/bin/snyk")
  = (false, Some (errorString "improper constraint: >=unknown")).
Proof.
  refine (proj1 (proj2 (proj2 (proj2 (gate_true_iff_nil_error
                                        Example.unversioned "/usr/bin/snyk"))))
                (Example.mkVersion 1 369 2 "1.369.2") _ _ _ _);
    reflexivity.
Defined.

(** ** Construction *)

Lemma applyOps_app (S : Type) (pre post : list (SnykProviderOps S))
      (p p1 : snykProvider) (st st1 : S) :
  applyOps p pre st = ((Some p1, None), st1) ->
  applyOps p (pre ++ post) st = applyOps p1 post st1.
Proof.
  revert p st. induction pre as [| f pre IH]; simpl; intros p st H.
  - now injection H as -> ->.
  - destruct (f p st) as [[p' [e |]] st']; [discriminate H |].
    now apply IH.
Qed.

Lemma applyOps_all (S : Type) (ops : list (SnykProviderOps S))
      (p : snykProvider) (st : S) :
  snd (fst (applyOps p ops st)) = None ->
  applyOps p ops st
  = ((Some (fst (applyAll ops (p, st))), None), snd (applyAll ops (p, st))).
Proof.
  revert p st. induction ops as [| f ops IH]; simpl; intros p st H.
  - reflexivity.
  - change (applyAll (f :: ops) (p, st))
      with (applyAll ops (applyOne (p, st) f)).
    unfold applyOne. cbn [fst snd].
    destruct (f p st) as [[p' [e |]] st']; [discriminate H |].
    now apply IH.
Qed.

Lemma applyOps_nil_iff (S : Type) (ops : list (SnykProviderOps S))
      (p : snykProvider) (st : S) :
  fst (fst (applyOps p ops st)) = None
  <-> snd (fst (applyOps p ops st)) <> None.
Proof.
  revert p st. induction ops as [| f ops IH]; simpl; intros p st.
  - split; [discriminate | intros H; now elim H].
  - destruct (f p st) as [[p' [e |]] st']; [| apply IH].
    simpl. split; [discriminate | reflexivity].
Qed.

(** C8.  NewSnykProvider starts from the default options.  The option
    functions are applied in list order, each to the provider and state
    the previous one left.  At the first one that returns an error the
    construction returns no provider and that error, and the state is the
    one this function left: the later ones are not applied.  When none
    returns an error the provider configured by all of them is returned
    with a nil error. *)
Theorem NewSnykProvider_in_order (S : Type) (defaultProvider : Options)
        (st : S) :
  NewSnykProvider defaultProvider [] st
  = ((Some (mkProvider defaultProvider), None), st)
  /\ (forall pre f post p st1,
        NewSnykProvider defaultProvider pre st = ((Some p, None), st1) ->
        (forall p' st2,
            f p st1 = ((p', None), st2) ->
            NewSnykProvider defaultProvider (pre ++ [f]) st
            = ((Some p', None), st2))
        /\ (forall p' e st2,
              f p st1 = ((p', Some e), st2) ->
              NewSnykProvider defaultProvider (pre ++ f :: post) st
              = ((None, Some e), st2)))
  /\ (forall snykOps : list (SnykProviderOps S),
        snd (fst (NewSnykProvider defaultProvider snykOps st)) = None ->
        NewSnykProvider defaultProvider snykOps st
        = ((Some (fst (applyAll snykOps (mkProvider defaultProvider, st))),
            None),
           snd (applyAll snykOps (mkProvider defaultProvider, st))))
  /\ (forall snykOps : list (SnykProviderOps S),
        fst (fst (NewSnykProvider defaultProvider snykOps st)) = None
        <-> snd (fst (NewSnykProvider defaultProvider snykOps st)) <> None).
Proof.
  unfold NewSnykProvider. split; [reflexivity |]. split; [| split].
  - intros pre f post p st1 Hpre. split.
    + intros p' st2 Hf. rewrite (applyOps_app _ _ _ _ _ _ _ Hpre).
      simpl. now rewrite Hf.
    + intros p' e st2 Hf. rewrite (applyOps_app _ _ _ _ _ _ _ Hpre).
      simpl. now rewrite Hf.
  - intros snykOps. apply applyOps_all.
  - intros snykOps. apply applyOps_nil_iff.
Qed.

Lemma NewSnykProvider_in_order_witness :
  NewSnykProvider (options Example.provider)
                  ([Example.withPath "/opt/snyk"]
                     ++ Example.refuse "no binary"
                     :: [Example.withFlag "--json"])%list
                  []
  = ((None, Some (errorString "no binary")), ["path"; "refuse"]).
Proof.
  refine (proj2 (proj1 (proj2 (NewSnykProvider_in_order
                                 (list string) (options Example.provider) []))
                       [Example.withPath "/opt/snyk"]
                       (Example.refuse "no binary")
                       [Example.withFlag "--json"]
                       _ _ _)
                _ _ _ _);
    reflexivity.
Defined.

(** ** The scanner configuration *)

(** C9.  With the home directory known: a configuration file that does
    not exist yields the empty token and a nil error; one that cannot be
    read for another reason, or whose content json.Unmarshal rejects,
    yields that error; one that decodes yields its field [api]. *)
Theorem isAuthenticatedOnSnyk_cases (host : Host) (home : string) :
  homedir_Dir = ok home ->
  (forall e,
      ioutil_ReadFile
        (filepath_Join [home; ".config"; "configstore"; "snyk.json"])
      = fail e ->
      os_IsNotExist e = true ->
      isAuthenticatedOnSnyk = ("", None))
  /\ (forall e,
        ioutil_ReadFile
          (filepath_Join [home; ".config"; "configstore"; "snyk.json"])
        = fail e ->
        os_IsNotExist e = false ->
        isAuthenticatedOnSnyk = ("", Some e))
  /\ (forall buff e,
        ioutil_ReadFile
          (filepath_Join [home; ".config"; "configstore"; "snyk.json"])
        = ok buff ->
        json_Unmarshal buff (mkConfig "") = fail e ->
        isAuthenticatedOnSnyk = ("", Some e))
  /\ (forall buff config,
        ioutil_ReadFile
          (filepath_Join [home; ".config"; "configstore"; "snyk.json"])
        = ok buff ->
        json_Unmarshal buff (mkConfig "") = ok config ->
        isAuthenticatedOnSnyk = (API config, None)).
Proof.
  intros Hhome. unfold isAuthenticatedOnSnyk. rewrite Hhome.
  repeat split.
  - intros e -> Hne. now rewrite Hne.
  - intros e -> Hne. now rewrite Hne.
  - now intros buff e -> ->.
  - now intros buff config -> ->.
Qed.

Lemma isAuthenticatedOnSnyk_cases_witness :
  isAuthenticatedOnSnyk (host := Example.anonymous) = ("", None).
Proof.
  refine (proj1 (isAuthenticatedOnSnyk_cases
                   Example.anonymous "/home/moby" _)
                (Example.noSuchFile "/home/moby/.config/configstore/snyk.json")
                _ _);
    reflexivity.
Defined.

(** ** Worked examples *)

Example cleanVersion_standalone :
  cleanVersion (host := Example.loggedIn)
               ("  1.369.2 (standalone)" ++ String "010" "")
  = "1.369.2".
Proof. reflexivity. Qed.

Example isAuthenticatedOnSnyk_logged_in :
  isAuthenticatedOnSnyk (host := Example.loggedIn)
  = ("6e1c5a0c-8f0b-4c59-9d3e-0a4b5c6d7e8f", None).
Proof. reflexivity. Qed.

Example isAuthenticatedOnSnyk_empty_token :
  isAuthenticatedOnSnyk (host := Example.loggedOut) = ("", None).
Proof. reflexivity. Qed.

Example Scan_logged_out :
  run (Scan (host := Example.loggedOut) Example.provider "example:image")
  = (Some (errorString
             "failed to get DockerScanID: You need to be logged in to Docker Hub to use scan feature."),
     []).
Proof. reflexivity. Qed.

Example Scan_clean_image :
  value (Scan (host := Example.hubUser) Example.provider
              "dockerscanci/scratch:1.0")
  = None.
Proof. reflexivity. Qed.

Example Authenticate_rejects :
  run (Authenticate (host := Example.hubUser) Example.provider "not-a-uuid")
  = (Some (invalidTokenError "not-a-uuid"), []).
Proof. reflexivity. Qed.

Example Authenticate_accepts :
  spawned (Authenticate (host := Example.hubUser) Example.provider
                        "6e1c5a0c-8f0b-4c59-9d3e-0a4b5c6d7e8f")
  = [authCmd (host := Example.hubUser) Example.provider
             "6e1c5a0c-8f0b-4c59-9d3e-0a4b5c6d7e8f"].
Proof. reflexivity. Qed.

Example Version_standalone :
  value (Version (host := Example.loggedIn) Example.provider)
  = ("Snyk (1.369.2 (standalone))", None).
Proof. reflexivity. Qed.

Example Version_broken_plain :
  value (Version (host := Example.broken "snyk: not a node binary")
                 Example.provider)
  = ("", Some (errorString
                 "failed to get snyk version: exit status 1,snyk: not a node binary")).
Proof. reflexivity. Qed.

Example gate_accepts_newer :
  value (checkUserSnykBinaryVersion (host := Example.loggedIn) "/usr/bin/snyk")
  = (true, None).
Proof. reflexivity. Qed.

(** * Further properties of snyk.go *)

(** ** cleanVersion *)

Lemma Split_head_no_sep (s : string) (sep : ascii) :
  Contains (hd "" (strings.Split s sep)) (String sep "") = false.
Proof.
  induction s as [| c rest IH]; simpl; [reflexivity |].
  destruct (Ascii.eqb c sep) eqn:Hc; [reflexivity |].
  destruct (strings.Split rest sep) as [| piece pieces]; simpl in *.
  - now rewrite Hc.
  - now rewrite Hc, IH.
Qed.

(** X1.  Whatever the scanner printed, the text cleanVersion hands to the
    version parser holds no space. *)
Theorem cleanVersion_no_space (host : Host) (version : string) :
  Contains (cleanVersion version) " " = false.
Proof.
  unfold cleanVersion. apply Split_head_no_sep.
Qed.

Lemma trimLeft_spaces (lead u : string) :
  every strings.asciiSpace lead = true ->
  strings.trimLeft (lead ++ u) = strings.trimLeft u.
Proof.
  induction lead as [| c lead IH]; simpl; [reflexivity |].
  intros H. apply andb_prop in H. destruct H as [Hc Hl].
  rewrite Hc. now apply IH.
Qed.

Lemma trimRight_token (t u : string) :
  every tokenByte t = true ->
  strings.trimRight (t ++ u) = t ++ strings.trimRight u.
Proof.
  induction t as [| c t IH]; simpl; [reflexivity |].
  intros H. apply andb_prop in H. destruct H as [Hc Ht].
  rewrite (IH Ht).
  unfold tokenByte in Hc. apply andb_prop in Hc. destruct Hc as [Hc _].
  apply negb_true_iff in Hc.
  destruct t as [| d t]; simpl.
  - destruct (strings.trimRight u); [now rewrite Hc | reflexivity].
  - reflexivity.
Qed.

Lemma trimRight_ascii (s : string) :
  every asciiByte s = true -> every asciiByte (strings.trimRight s) = true.
Proof.
  induction s as [| c s IH]; simpl; [reflexivity |].
  intros H. apply andb_prop in H. destruct H as [Hc Hs].
  specialize (IH Hs).
  destruct (strings.trimRight s) as [| d r].
  - destruct (strings.asciiSpace c); simpl; [reflexivity | now rewrite Hc].
  - simpl in *. now rewrite Hc, IH.
Qed.

Lemma trimRight_emptyOrSpace (s : string) :
  emptyOrSpace s = true -> emptyOrSpace (strings.trimRight s) = true.
Proof.
  destruct s as [| c s]; simpl; [reflexivity |].
  intros Hc. apply Ascii.eqb_eq in Hc. subst c.
  now destruct (strings.trimRight s).
Qed.

Lemma ascii_ends_ascii (s : string) :
  every asciiByte s = true -> strings.endsNonASCII s = false.
Proof.
  unfold strings.endsNonASCII.
  induction s as [| c s IH]; simpl; [reflexivity |].
  intros H. apply andb_prop in H. destruct H as [Hc Hs].
  destruct s as [| d s].
  - unfold asciiByte in Hc. now apply negb_true_iff in Hc.
  - now apply IH.
Qed.

Lemma every_app (p : ascii -> bool) (s t : string) :
  every p (s ++ t) = every p s && every p t.
Proof.
  induction s as [| c s IH]; simpl; [reflexivity |].
  now rewrite IH, andb_assoc.
Qed.

Lemma token_ascii (t : string) :
  every tokenByte t = true -> every asciiByte t = true.
Proof.
  induction t as [| c t IH]; simpl; [reflexivity |].
  intros H. apply andb_prop in H. destruct H as [Hc Ht].
  unfold tokenByte in Hc. apply andb_prop in Hc. destruct Hc as [_ Hc].
  unfold asciiByte at 1. now rewrite Hc, IH.
Qed.

Lemma Split_head_token (t u : string) :
  every tokenByte t = true -> emptyOrSpace u = true ->
  hd "" (strings.Split (t ++ u) " ") = t.
Proof.
  induction t as [| c t IH]; simpl; intros Ht Hu.
  - destruct u as [| d u]; [reflexivity |]. simpl in *. now rewrite Hu.
  - apply andb_prop in Ht. destruct Ht as [Hc Ht].
    specialize (IH Ht Hu).
    assert (Hsp : Ascii.eqb c " " = false).
    { unfold tokenByte, strings.asciiSpace in Hc.
      destruct (Ascii.eqb c " "); [| reflexivity].
      now rewrite !orb_true_r in Hc. }
    rewrite Hsp.
    destruct (strings.Split (t ++ u) " ") as [| piece pieces] eqn:Hs.
    + now elim (Split_not_empty (t ++ u) " ").
    + simpl in *. now rewrite IH.
Qed.

(** X2.  When the scanner prints ASCII text whose first run of bytes other
    than white space is [t], followed by nothing or by a space and more
    text, cleanVersion returns [t]: leading white space, the trailing
    newline and everything after the first space are dropped. *)
Theorem cleanVersion_first_token (host : Host) (lead t rest : string) :
  every strings.asciiSpace lead = true ->
  t <> "" ->
  every tokenByte t = true ->
  every asciiByte rest = true ->
  emptyOrSpace rest = true ->
  cleanVersion (lead ++ t ++ rest) = t.
Proof.
  intros Hlead Hne Ht Hascii Hrest.
  unfold cleanVersion, TrimSpace, strings.TrimSpace.
  rewrite trimLeft_spaces by assumption.
  assert (Hleft : strings.trimLeft (t ++ rest) = t ++ rest).
  { destruct t as [| c t]; [now elim Hne |]. simpl in *.
    apply andb_prop in Ht. destruct Ht as [Hc _].
    unfold tokenByte in Hc. apply andb_prop in Hc. destruct Hc as [Hc _].
    apply negb_true_iff in Hc. now rewrite Hc. }
  rewrite Hleft.
  assert (Hstart : strings.startsNonASCII (t ++ rest) = false).
  { destruct t as [| c t]; [now elim Hne |].
    unfold strings.startsNonASCII. simpl in *.
    apply andb_prop in Ht. destruct Ht as [Hc _].
    unfold tokenByte in Hc. apply andb_prop in Hc. destruct Hc as [_ Hc].
    now apply negb_true_iff in Hc. }
  rewrite Hstart, trimRight_token by assumption.
  rewrite ascii_ends_ascii.
  - apply Split_head_token; [assumption |].
    now apply trimRight_emptyOrSpace.
  - rewrite every_app, token_ascii by assumption.
    now rewrite trimRight_ascii.
Qed.

Lemma cleanVersion_first_token_witness :
  cleanVersion (host := Example.loggedIn)
               (String "010" "  " ++ "1.369.2" ++ " (standalone)  "
                ++ String "010" "")
  = "1.369.2".
Proof.
  apply (cleanVersion_first_token
           Example.loggedIn (String "010" "  ") "1.369.2"
           (" (standalone)  " ++ String "010" ""));
    try reflexivity.
  discriminate.
Defined.

(** ** Errors the caller sees *)

(** X3.  checkCommandErr is idempotent, and what it returns is never
    exec.ErrNotFound, an *exec.Error or an *os.PathError. *)
Theorem checkCommandErr_idempotent (host : Host) (e : option error) :
  checkCommandErr (checkCommandErr e) = checkCommandErr e
  /\ notRaw (checkCommandErr e) = true.
Proof.
  destruct e as [[] |]; split; reflexivity.
Qed.

Lemma checkCommandErr_missing (host : Host) (e : error) :
  notFoundClass e = true ->
  checkCommandErr (Some e) = Some (errorString "could not find Snyk binary").
Proof.
  destruct e; try discriminate; reflexivity.
Qed.

Lemma checkCommandErr_notRaw (host : Host) (e : option error) :
  notRaw (checkCommandErr e) = true.
Proof.
  destruct e as [[] |]; reflexivity.
Qed.

(** X4.  When the subprocess Authenticate or Scan spawned could not be
    started because the binary is missing (exec.ErrNotFound, *exec.Error
    or *os.PathError), the caller gets the error "could not find Snyk
    binary" whatever the original error said. *)
Theorem missing_binary_reported (host : Host) (s : snykProvider)
        (cmd : Cmd) (e : error) :
  runErr (exec_Run cmd) = Some e ->
  notFoundClass e = true ->
  (forall token,
      In cmd (spawned (Authenticate s token)) ->
      value (Authenticate s token)
      = Some (errorString "could not find Snyk binary"))
  /\ (forall image,
        In cmd (spawned (Scan s image)) ->
        value (Scan s image)
        = Some (errorString "could not find Snyk binary")).
Proof.
  intros He Hclass. split.
  - intros token. unfold spawned, value. rewrite Authenticate_run.
    destruct (rejected token); simpl; [contradiction |].
    intros [<- | []]. rewrite He. now apply checkCommandErr_missing.
  - intros image. unfold spawned, value. rewrite Scan_run.
    destruct noLocalToken;
      [destruct (getToken (options s)) as [token | e'] |]; simpl;
      try contradiction; intros [<- | []]; simpl in He; rewrite He;
      now apply checkCommandErr_missing.
Qed.

Lemma missing_binary_reported_witness :
  value (Scan (host := Example.missing) Example.provider "alpine:3.10.0")
  = Some (errorString "could not find Snyk binary").
Proof.
  refine (proj2 (missing_binary_reported
                   Example.missing Example.provider _ _ _ _)
                "alpine:3.10.0" _).
  - reflexivity.
  - reflexivity.
  - vm_compute. left. reflexivity.
Defined.

(** X5.  Authenticate and Scan never return exec.ErrNotFound, an
    *exec.Error or an *os.PathError to the caller. *)
Theorem provider_never_raw (host : Host) (s : snykProvider) :
  (forall token, notRaw (value (Authenticate s token)) = true)
  /\ (forall image, notRaw (value (Scan s image)) = true).
Proof.
  split.
  - intros token. unfold value. rewrite Authenticate_run.
    destruct (rejected token); [reflexivity | apply checkCommandErr_notRaw].
  - intros image. unfold value. rewrite Scan_run.
    destruct noLocalToken;
      [destruct (getToken (options s)) as [token | e] |];
      try reflexivity; apply checkCommandErr_notRaw.
Qed.

(** ** More on Version *)

Lemma Version_success_witness :
  value (Version (host := Example.loggedIn) Example.provider)
  = ("Snyk (1.369.2 (standalone))", None).
Proof.
  apply (Version_success Example.loggedIn Example.provider). reflexivity.
Defined.

Lemma Version_failure_plain_witness :
  value (Version (host := Example.broken "snyk: not a node binary")
                 Example.provider)
  = ("", Some (errorString
                 "failed to get snyk version: exit status 1,snyk: not a node binary")).
Proof.
  apply (Version_failure_plain
           (Example.broken "snyk: not a node binary") Example.provider
           (ExitError 1 "exit status 1"));
    reflexivity.
Defined.

(** X6.  Version returns a nil error exactly when it returns a text that
    is not empty, and that text begins with "Snyk (". *)
Theorem Version_text_iff_no_error (host : Host) (s : snykProvider) :
  (snd (value (Version s)) = None <-> fst (value (Version s)) <> "")
  /\ (snd (value (Version s)) = None ->
      HasPrefix (fst (value (Version s))) "Snyk (" = true).
Proof.
  unfold value. rewrite Version_run. cbv beta zeta.
  destruct (runErr (exec_Run (versionCmd s))); cbn [fst snd]; split.
  - split; [discriminate | intros H; now elim H].
  - discriminate.
  - split; [discriminate | reflexivity].
  - reflexivity.
Qed.

Lemma Version_text_iff_no_error_witness :
  HasPrefix (fst (value (Version (host := Example.loggedIn)
                                 Example.provider)))
            "Snyk (" = true.
Proof.
  apply (Version_text_iff_no_error Example.loggedIn Example.provider).
  reflexivity.
Defined.

Lemma Version_message_plain (host : Host) (msg complaint : string) :
  percentFree msg = true -> percentFree complaint = true ->
  Errorf (if complaint =? "" then "failed to get snyk version: " ++ msg
          else Sprintf (("failed to get snyk version: " ++ msg) ++ ",%s")
                       [complaint])
         []
  = errorString ("failed to get snyk version: " ++ msg
                 ++ (if complaint =? "" then "" else "," ++ complaint)).
Proof.
  intros Hmsg Hc.
  assert (Hfree : percentFree ("failed to get snyk version: " ++ msg) = true)
    by (rewrite percentFree_app; now rewrite Hmsg).
  destruct (complaint =? "").
  - rewrite Errorf_plain by assumption. now rewrite append_empty_r.
  - change ",%s" with ("," ++ "%s").
    rewrite <- append_assoc, Sprintf_suffix
      by (rewrite percentFree_app; now rewrite Hfree).
    rewrite Errorf_plain
      by (rewrite !percentFree_app; now rewrite Hmsg, Hc).
    now rewrite !append_assoc.
Qed.

(** X9.  When the scanner binary is missing, the error of Version reads
    "failed to get snyk version: could not find Snyk binary", followed by
    a comma and the captured standard error if there is any (taken free of
    percent signs). *)
Theorem Version_missing_binary (host : Host) (s : snykProvider) (e : error) :
  runErr (exec_Run (versionCmd s)) = Some e ->
  notFoundClass e = true ->
  percentFree (stderr (exec_Run (versionCmd s))) = true ->
  value (Version s)
  = ("", Some (errorString
                 ("failed to get snyk version: could not find Snyk binary"
                  ++ (if stderr (exec_Run (versionCmd s)) =? "" then ""
                      else "," ++ stderr (exec_Run (versionCmd s)))))).
Proof.
  intros He Hclass Hfree. unfold value. rewrite Version_run.
  cbv beta zeta. rewrite He. cbn [fst].
  rewrite (checkCommandErr_missing host e Hclass). cbn [showError Error].
  now rewrite (Version_message_plain host "could not find Snyk binary").
Qed.

Lemma Version_missing_binary_witness :
  value (Version (host := Example.missing) Example.provider)
  = ("", Some (errorString
                 "failed to get snyk version: could not find Snyk binary")).
Proof.
  refine (Version_missing_binary Example.missing Example.provider _ _ _ _);
    reflexivity.
Defined.

(** ** Scan and the scanner configuration *)

Lemma isAuthenticatedOnSnyk_error_token (host : Host) :
  isSome (snd isAuthenticatedOnSnyk) = true -> fst isAuthenticatedOnSnyk = "".
Proof.
  unfold isAuthenticatedOnSnyk.
  destruct homedir_Dir as [home | e]; [| reflexivity].
  destruct (ioutil_ReadFile _) as [buff | e].
  - destruct (json_Unmarshal buff _) as [config | e];
      [discriminate | reflexivity].
  - now destruct (os_IsNotExist e).
Qed.

(** X10.  Whenever isAuthenticatedOnSnyk returns an error it returns the
    empty token with it.  So the test of Scan, an empty token or an error,
    comes down to an empty token. *)
Theorem config_error_means_no_token (host : Host) :
  (snd isAuthenticatedOnSnyk <> None -> fst isAuthenticatedOnSnyk = "")
  /\ noLocalToken = (fst isAuthenticatedOnSnyk =? "").
Proof.
  split.
  - intros H. apply isAuthenticatedOnSnyk_error_token.
    now destruct (snd isAuthenticatedOnSnyk).
  - unfold noLocalToken.
    destruct (isSome (snd isAuthenticatedOnSnyk)) eqn:Herr.
    + now rewrite (isAuthenticatedOnSnyk_error_token host Herr).
    + apply orb_false_r.
Qed.

Lemma config_error_means_no_token_witness :
  fst (isAuthenticatedOnSnyk (host := Example.unreadable)) = "".
Proof.
  apply (config_error_means_no_token Example.unreadable). discriminate.
Defined.

(** X11.  An error met while looking for the local token (no home
    directory, a configuration file that cannot be read or decoded) is
    never reported by Scan: Scan turns to the identity service, and its
    result is the one of the subprocess run with SNYK_DOCKER_TOKEN, or the
    "failed to get DockerScanID" error. *)
Theorem Scan_swallows_config_errors (host : Host) (s : snykProvider)
        (image : string) (e0 : error) :
  snd isAuthenticatedOnSnyk = Some e0 ->
  (forall token,
      getToken (options s) = ok token ->
      run (Scan s image)
      = (checkCommandErr
           (runErr (exec_Run
                      (scanCmd s image ("SNYK_DOCKER_TOKEN=" ++ token)))),
         [scanCmd s image ("SNYK_DOCKER_TOKEN=" ++ token)]))
  /\ (forall e,
        getToken (options s) = fail e ->
        run (Scan s image)
        = (Some (errorString ("failed to get DockerScanID: " ++ Error e)),
           [])).
Proof.
  intros H0. rewrite Scan_run.
  assert (Hno : noLocalToken = true).
  { unfold noLocalToken. rewrite H0. apply orb_true_r. }
  rewrite Hno. split; intros x Hx; now rewrite Hx.
Qed.

Lemma Scan_swallows_config_errors_witness :
  run (Scan (host := Example.unreadable) Example.provider "alpine:3.10.0")
  = (None,
     [scanCmd (host := Example.unreadable) Example.provider "alpine:3.10.0"
              "SNYK_DOCKER_TOKEN=hub-token"]).
Proof.
  refine (proj1 (Scan_swallows_config_errors
                   Example.unreadable Example.provider "alpine:3.10.0"
                   (PathError "open" "/home/moby/.config/configstore/snyk.json"
                      (foreignError "syscall.Errno" "permission denied"))
                   _)
                "hub-token" _);
    reflexivity.
Defined.

(** ** The subprocesses *)

Lemma commandPath_resolves (host : Host) (name : string) :
  resolvesTo name (commandPath name).
Proof.
  unfold resolvesTo, commandPath.
  destruct (String.eqb_spec (filepath_Base name) name) as [Hb | Hb];
    destruct (String.eqb_spec (fst (exec_LookPath name)) "") as [Hl | Hl];
    repeat split; intros; try reflexivity; contradiction.
Qed.

(** X12.  Authenticate, for a token it does not reject, and Scan, with a
    local token or a token of the identity service, run one command: the
    binary of the provider under its context, its output connected to the
    two streams of the provider, its arguments [auth] and the token, or
    the flags followed by the image.  Version runs the same binary with
    [--version] and captures both outputs in buffers of its own.  The
    version gate runs the given name with [--version], sets no environment
    and no context, and discards the standard error.  In each the file run
    is the configured name when it has a directory part, and the file
    exec.LookPath finds for a bare name. *)
Theorem provider_wiring (host : Host) (s : snykProvider) :
  (forall token,
      rejected token = false ->
      exists cmd,
        spawned (Authenticate s token) = [cmd]
        /\ resolvesTo (path (options s)) (Path cmd)
        /\ Args cmd = [path (options s); "auth"; token]
        /\ Stdout cmd = out (options s)
        /\ Stderr cmd = err (options s)
        /\ ctx cmd = Some (context (options s)))
  /\ (forall image,
        noLocalToken = false \/ isFail (getToken (options s)) = false ->
        exists cmd,
          spawned (Scan s image) = [cmd]
          /\ resolvesTo (path (options s)) (Path cmd)
          /\ Args cmd
             = (path (options s) :: flags (options s) ++ [image])%list
          /\ Stdout cmd = out (options s)
          /\ Stderr cmd = err (options s)
          /\ ctx cmd = Some (context (options s)))
  /\ (exists cmd,
        spawned (Version s) = [cmd]
        /\ resolvesTo (path (options s)) (Path cmd)
        /\ Args cmd = [path (options s); "--version"]
        /\ Stdout cmd = Buffer 0
        /\ Stderr cmd = Buffer 1
        /\ ctx cmd = Some (context (options s)))
  /\ (forall name,
        exists cmd,
          spawned (checkUserSnykBinaryVersion name) = [cmd]
          /\ resolvesTo name (Path cmd)
          /\ Args cmd = [name; "--version"]
          /\ Env cmd = []
          /\ Stdout cmd = Buffer 0
          /\ Stderr cmd = Discard
          /\ ctx cmd = None).
Proof.
  split; [| split; [| split]].
  - intros token Hok. unfold spawned. rewrite Authenticate_run, Hok.
    exists (authCmd s token).
    repeat split; try reflexivity; now apply commandPath_resolves.
  - intros image Hrun. unfold spawned. rewrite Scan_run.
    destruct noLocalToken;
      [destruct (getToken (options s)) as [token | e] |].
    + eexists.
      repeat split; try reflexivity; now apply commandPath_resolves.
    + destruct Hrun as [H | H]; discriminate H.
    + eexists.
      repeat split; try reflexivity; now apply commandPath_resolves.
  - exists (versionCmd s). unfold spawned. rewrite Version_run.
    repeat split; try reflexivity; now apply commandPath_resolves.
  - intros name. exists (userCmd name). unfold spawned.
    rewrite checkUserSnykBinaryVersion_run.
    repeat split; try reflexivity; now apply commandPath_resolves.
Qed.

Lemma provider_wiring_witness :
  exists cmd,
    spawned (Scan (host := Example.loggedIn) Example.provider "alpine:3.10.0")
    = [cmd]
    /\ resolvesTo (host := Example.loggedIn) "/usr/local/bin/snyk" (Path cmd)
    /\ Args cmd = ["/usr/local/bin/snyk"; "test"; "--docker"; "alpine:3.10.0"]
    /\ Stdout cmd = Stream 1
    /\ Stderr cmd = Stream 2
    /\ ctx cmd = Some (contextOf 0).
Proof.
  apply (proj1 (proj2 (provider_wiring Example.loggedIn Example.provider))
               "alpine:3.10.0").
  left. reflexivity.
Defined.

(** X13.  Every operation runs at most one subprocess.  Authenticate runs
    none exactly when it rejects the token; Scan runs none exactly when it
    finds no local token and the identity service gives none; Version and
    the version gate always run one. *)
Theorem spawn_counts (host : Host) (s : snykProvider) :
  (forall token,
      (length (spawned (Authenticate s token)) <= 1)%nat
      /\ (spawned (Authenticate s token) = [] <-> rejected token = true))
  /\ (forall image,
        (length (spawned (Scan s image)) <= 1)%nat
        /\ (spawned (Scan s image) = []
            <-> noLocalToken = true
                /\ isFail (getToken (options s)) = true))
  /\ length (spawned (Version s)) = 1%nat
  /\ (forall name,
        length (spawned (checkUserSnykBinaryVersion name)) = 1%nat).
Proof.
  split; [| split; [| split]].
  - intros token. unfold spawned. rewrite Authenticate_run.
    destruct (rejected token); simpl; split; try lia; split;
      try reflexivity; discriminate.
  - intros image. unfold spawned. rewrite Scan_run.
    destruct noLocalToken;
      [destruct (getToken (options s)) as [token | e] |]; simpl;
      split; try lia; split; try discriminate; try tauto.
    + intros [_ H]. discriminate H.
    + intros [H _]. discriminate H.
  - unfold spawned. now rewrite Version_run.
  - intros name. unfold spawned. now rewrite checkUserSnykBinaryVersion_run.
Qed.

(** ** More on construction *)

Lemma applyOps_app_fail (S : Type) (pre post : list (SnykProviderOps S))
      (p : snykProvider) (st st1 : S) (e : error) :
  applyOps p pre st = ((None, Some e), st1) ->
  applyOps p (pre ++ post) st = ((None, Some e), st1).
Proof.
  revert p st. induction pre as [| f pre IH]; simpl; intros p st H.
  - discriminate H.
  - destruct (f p st) as [[p' [e' |]] st']; [assumption |].
    now apply IH.
Qed.

(** X14.  Option lists compose.  When construction from the options [pre]
    fails, construction from [pre] followed by any further options fails
    with the same error and the same state.  When it succeeds with the
    provider [p], construction from [pre ++ post] continues from [p] with
    the options [post]. *)
Theorem NewSnykProvider_app (S : Type) (defaultProvider : Options)
        (pre post : list (SnykProviderOps S)) (st st1 : S) :
  (forall e,
      NewSnykProvider defaultProvider pre st = ((None, Some e), st1) ->
      NewSnykProvider defaultProvider (pre ++ post) st
      = ((None, Some e), st1))
  /\ (forall p,
        NewSnykProvider defaultProvider pre st = ((Some p, None), st1) ->
        NewSnykProvider defaultProvider (pre ++ post) st
        = NewSnykProvider (options p) post st1).
Proof.
  unfold NewSnykProvider. split.
  - intros e. apply applyOps_app_fail.
  - intros [o] H. simpl. now apply applyOps_app.
Qed.

Lemma NewSnykProvider_app_witness :
  NewSnykProvider (options Example.provider)
                  ([Example.withPath "/opt/snyk"; Example.refuse "no binary"]
                     ++ [Example.withFlag "--json"])%list
                  []
  = ((None, Some (errorString "no binary")), ["path"; "refuse"]).
Proof.
  apply (NewSnykProvider_app
           (list string) (options Example.provider)
           [Example.withPath "/opt/snyk"; Example.refuse "no binary"]
           [Example.withFlag "--json"] [] ["path"; "refuse"]).
  reflexivity.
Defined.

Lemma spawn_counts_witness :
  spawned (Authenticate (host := Example.hubUser) Example.provider
                        "not-a-uuid")
  = [].
Proof.
  apply (proj1 (spawn_counts Example.hubUser Example.provider) "not-a-uuid").
  reflexivity.
Defined.

(** A bare name is resolved when the command is built: the file run is the
    one found on the PATH, the first argument stays the name. *)
Example bare_name_resolved :
  map (fun cmd => (Path cmd, Args cmd))
      (spawned (Version (host := Example.loggedIn) Example.onPath))
  = [("/usr/bin/snyk", ["snyk"; "--version"])].
Proof. reflexivity. Qed.

Example full_path_kept :
  map (fun cmd => (Path cmd, Args cmd))
      (spawned (checkUserSnykBinaryVersion (host := Example.loggedIn)
                                           "/opt/snyk/snyk"))
  = [("/opt/snyk/snyk", ["/opt/snyk/snyk"; "--version"])].
Proof. reflexivity. Qed.
